(** * DpyBot-DevCog: the [dev] cog ([src/dev/__init__.py])

    A shallow embedding of the cog's text pager, output sanitizer, await
    helper, interactive delivery and REPL session machinery, followed by the
    properties proved about them.

    Python values are modelled as follows:
    - [str] is a list of Unicode code points ([N]);
    - [int] is [Z] (Python integers do not wrap);
    - dictionaries keyed by strings or channel ids are [gmap]s, except
      [env_extensions], whose iteration order is observable and which is an
      association list in insertion order;
    - generators are run to a list of yielded values together with the way
      the run ended;
    - code that awaits the chat service is written in a small state and
      exception monad over a log of the actions performed. *)

From Stdlib Require Import ZArith List Lia Ascii String Bool DecimalString.
From stdpp Require Import base option list strings gmap.

Local Open Scope Z_scope.

(** ** Python string primitives *)

Module Py.

(** A code point. *)
Definition char : Type := N.

(** [str]: an immutable sequence of code points. *)
Definition str : Type := list char.

(** The code points of a literal. Rocq string literals have no escapes, so
    a line feed is written [nl]. *)
Definition lit (s : string) : str :=
  map N_of_ascii (list_ascii_of_string s).

Definition nl : char := 10%N.

(** [len(s)] *)
Definition len (s : str) : Z := Z.of_nat (length s).

(** [c.isspace()] for one code point: the characters CPython's
    [_PyUnicode_IsWhitespace] accepts, which are the ones [str.strip()]
    removes and the regular expression class [\s] matches. *)
Definition isspace (c : char) : bool :=
  ((9 <=? c) && (c <=? 13) || (28 <=? c) && (c <=? 32)
   || (c =? 133) || (c =? 160) || (c =? 5760)
   || (8192 <=? c) && (c <=? 8202)
   || (c =? 8232) || (c =? 8233) || (c =? 8239) || (c =? 8287)
   || (c =? 12288))%N.

(** A slice bound as [PySlice_AdjustIndices] normalises it for step 1:
    negative bounds count from the end, and everything is clipped to
    [0 .. n]. *)
Definition adjust_index (n i : Z) : Z :=
  if i <? 0 then Z.max 0 (i + n) else Z.min i n.

(** [s[:hi]] *)
Definition slice_to (s : str) (hi : Z) : str :=
  take (Z.to_nat (adjust_index (len s) hi)) s.

(** [s[lo:]] *)
Definition slice_from (s : str) (lo : Z) : str :=
  drop (Z.to_nat (adjust_index (len s) lo)) s.

(** [s.startswith(prefix)] *)
Fixpoint startswith (s prefix : str) : bool :=
  match prefix, s with
  | [], _ => true
  | _ :: _, [] => false
  | p :: prefix', c :: s' => (c =? p)%N && startswith s' prefix'
  end.

(** [s.endswith(suffix)] *)
Definition endswith (s suffix : str) : bool :=
  startswith (rev s) (rev suffix).

(** [s == t] *)
Definition eqb (s t : str) : bool :=
  (length s =? length t)%nat && startswith s t.

(** [s.lstrip(...)], the characters to remove given as a predicate. *)
Fixpoint lstrip_with (drop_it : char -> bool) (s : str) : str :=
  match s with
  | [] => []
  | c :: s' => if drop_it c then lstrip_with drop_it s' else s
  end.

Definition rstrip_with (drop_it : char -> bool) (s : str) : str :=
  rev (lstrip_with drop_it (rev s)).

Definition strip_with (drop_it : char -> bool) (s : str) : str :=
  rstrip_with drop_it (lstrip_with drop_it s).

(** [s.strip()] *)
Definition strip (s : str) : str := strip_with isspace s.

(** [s.strip(chars)] *)
Definition strip_chars (s chars : str) : str :=
  strip_with (fun c => existsb (N.eqb c) chars) s.

(** [s.count(c)] for a one-character needle. *)
Definition count_char (s : str) (c : char) : Z :=
  len (filter (fun x => x = c) s).

(** The candidates [start + k - 1], ..., [start] of a reverse search, the
    highest first. *)
Fixpoint rfind_scan (s sub : str) (start k : nat) : Z :=
  match k with
  | O => -1
  | S k' =>
      if startswith (drop (start + k') s) sub
      then Z.of_nat (start + k')
      else rfind_scan s sub start k'
  end.

(** [s.rfind(sub, start, end)]: the highest index [i] with
    [start <= i], [i + len(sub) <= end] and [s[i:i+len(sub)] == sub], or
    [-1]. The bounds are adjusted as CPython's [ADJUST_INDICES] does
    ([start] is not clipped to the length). *)
Definition rfind (s sub : str) (start end_ : Z) : Z :=
  let n := len s in
  let e := if n <? end_ then n
           else if end_ <? 0 then Z.max 0 (end_ + n) else end_ in
  let b := if start <? 0 then Z.max 0 (start + n) else start in
  if e - b <? len sub then -1
  else rfind_scan s sub (Z.to_nat b) (Z.to_nat (e - b - len sub + 1)).

(** [max(xs)] over integers; [None] stands for the [ValueError] raised on
    an empty argument. *)
Definition max_ (xs : list Z) : option Z :=
  match xs with
  | [] => None
  | x :: xs' => Some (fold_left Z.max xs' x)
  end.

(** [next((x for x in xs if x > 0), default)] *)
Fixpoint next_positive (xs : list Z) (default : Z) : Z :=
  match xs with
  | [] => default
  | x :: xs' => if 0 <? x then x else next_positive xs' default
  end.

End Py.

(** ** [pagify] *)

(** How the run of a generator ended: it returned ([StopIteration]), a
    [ValueError] escaped from it, or the loop was still running when the
    fuel of the model ran out. *)
Inductive gen_end : Type :=
| StopIteration
| ValueError
| Pending.

Record generated : Type := Generated {
  yielded : list Py.str;
  stopped : gen_end
}.

(** [yield page] in front of the rest of a run. *)
Definition yield_then (page : Py.str) (rest : generated) : generated :=
  {| yielded := page :: yielded rest; stopped := stopped rest |}.

(** Lines 59-64: the split point of one iteration, [None] when [max] raises. *)
Definition closest_delim (in_text : Py.str) (delims : list Py.str)
    (priority : bool) (this_page_len : Z) : option Z :=
  let found := map (fun d => Py.rfind in_text d 1 this_page_len) delims in
  let picked :=
    if priority then Some (Py.next_positive found (-1)) else Py.max_ found in
  match picked with
  | None => None
  | Some c => Some (if c =? -1 then this_page_len else c)
  end.

(** Lines 57-71, [page_length] already shortened. One unit of fuel is one
    iteration of the [while] loop. *)
Fixpoint pagify_loop (fuel : nat) (delims : list Py.str) (priority : bool)
    (page_length : Z) (in_text : Py.str) : generated :=
  if page_length <? Py.len in_text then
    match fuel with
    | O => {| yielded := []; stopped := Pending |}
    | S fuel' =>
        match closest_delim in_text delims priority page_length with
        | None => {| yielded := []; stopped := ValueError |}
        | Some cd =>
            let to_send := Py.slice_to in_text cd in
            let rest :=
              pagify_loop fuel' delims priority page_length
                (Py.slice_from in_text cd) in
            if 0 <? Py.len (Py.strip to_send)
            then yield_then to_send rest
            else rest
        end
    end
  else
    {| yielded := if 0 <? Py.len (Py.strip in_text) then [in_text] else [];
       stopped := StopIteration |}.

(** [list(pagify(text, delims, priority=..., shorten_by=..., page_length=...))].
    The loop is given one iteration per character and one more, which is
    enough whenever it ends at all ([pagify_loop_fuel]); [Pending] is the
    loop that never ends. *)
Definition pagify (text : Py.str) (delims : list Py.str) (priority : bool)
    (shorten_by page_length : Z) : generated :=
  pagify_loop (S (length text)) delims priority (page_length - shorten_by) text.

(** [get_pages(msg)], line 184. *)
Definition get_pages (msg : Py.str) : generated :=
  pagify msg [[Py.nl]; Py.lit " "] true 10 2000.

(** ** [re.sub] on an escaped literal, and [sanitize_output] *)

Module Re.

(** [re.I], the flag [re.IGNORECASE], as the integer it is. *)
Definition I : Z := 2.

(** The lower-case form of an ASCII letter; other code points are left
    alone. *)
Definition lower (c : Py.char) : Py.char :=
  if ((65 <=? c) && (c <=? 90))%N then (c + 32)%N else c.

(** One pattern character against one subject character under [flags]. *)
Definition char_matches (flags : Z) (p c : Py.char) : bool :=
  if Z.testbit flags 1 then (lower p =? lower c)%N else (p =? c)%N.

(** The literal [pat] matches at the start of [s]. *)
Fixpoint match_at (flags : Z) (pat s : Py.str) : bool :=
  match pat, s with
  | [], _ => true
  | _ :: _, [] => false
  | p :: pat', c :: s' => char_matches flags p c && match_at flags pat' s'
  end.

(** The scan of [re.sub]: [skip] characters of the current match are still
    to be consumed, [budget] replacements are still allowed. Matches are
    found leftmost first and do not overlap; an empty match is followed by
    one copied character. *)
Fixpoint sub_scan (flags : Z) (pat repl : Py.str) (skip budget : nat)
    (s : Py.str) : Py.str :=
  match skip with
  | S skip' =>
      match s with
      | [] => []
      | _ :: s' => sub_scan flags pat repl skip' budget s'
      end
  | O =>
      match budget with
      | O => s
      | S budget' =>
          if match_at flags pat s then
            repl ++
            match s with
            | [] => []
            | c :: s' =>
                match pat with
                | [] => c :: sub_scan flags pat repl 0 budget' s'
                | _ :: pat' =>
                    sub_scan flags pat repl (length pat') budget' s'
                end
            end
          else
            match s with
            | [] => []
            | c :: s' => c :: sub_scan flags pat repl 0 budget s'
            end
      end
  end.

(** [re.sub(re.escape(literal), repl, string, count, flags)] for a
    replacement without backslashes. [count = 0] replaces every match, a
    positive [count] at most that many, a negative one none. *)
Definition sub_escaped (literal repl string : Py.str) (count flags : Z)
    : Py.str :=
  let budget :=
    if count =? 0 then S (length string) else Z.to_nat count in
  sub_scan flags literal repl 0 budget string.

End Re.

Definition EXPUNGED : Py.str := Py.lit "[EXPUNGED]".

(** [sanitize_output(ctx, input_)], lines 187-190, with [token] standing for
    [ctx.bot.http.token]. The fourth positional parameter of [re.sub] is
    [count], and [flags] keeps its default. *)
Definition sanitize_output (token input_ : Py.str) : Py.str :=
  Re.sub_escaped token EXPUNGED input_ Re.I 0.

(** What the docstring and the [re.I] argument ask for: every occurrence,
    letter case ignored. *)
Definition sanitize_ignoring_case (token input_ : Py.str) : Py.str :=
  Re.sub_escaped token EXPUNGED input_ 0 Re.I.

(** ** Exceptions and values *)

(** An exception instance: the names of the classes of [type(e).__mro__],
    most derived first, [str(e)], and for a [SyntaxError] its [text] and
    [offset], each a value or [None]. *)
Record exn : Type := Exn {
  exn_mro : list string;
  exn_str : Py.str;
  exn_text : option Py.str;
  exn_offset : option Z
}.

(** [isinstance(e, cls)] *)
Definition isinstance (e : exn) (cls : string) : bool :=
  bool_decide (cls ∈ exn_mro e).

(** [isinstance(e, (cls1, cls2, ...))] *)
Definition isinstance_any (e : exn) (classes : list string) : bool :=
  existsb (isinstance e) classes.

(** [type(e).__name__] *)
Definition type_name (e : exn) : Py.str :=
  Py.lit (hd "BaseException"%string (exn_mro e)).

(** A chat message. *)
Record message : Type := Message {
  msg_id : Z;
  msg_author_id : Z;
  msg_channel_id : Z;
  msg_content : Py.str
}.

(** The values that evaluated code and the environment hold. [VHost] is an
    opaque object of the host program (the bot, a channel, a module);
    awaiting [VCoro v] gives [v] and awaiting [VCoroRaising e] raises [e]. *)
Inductive value : Type :=
| VNone
| VInt (z : Z)
| VStr (s : Py.str)
| VHost (name : string)
| VMsg (m : message)
| VExc (e : exn)
| VCoro (result : value)
| VCoroRaising (e : exn).

(** How a call ends. *)
Inductive outcome (A : Type) : Type :=
| Returns (a : A)
| Raises (e : exn).
Arguments Returns {A} a.
Arguments Raises {A} e.

(** [value is not None] *)
Definition is_not_None (v : value) : bool :=
  match v with VNone => false | _ => true end.

(** ** [maybe_await], lines 150-157 *)

(** [inspect.isawaitable(v)] *)
Definition isawaitable (v : value) : bool :=
  match v with
  | VCoro _ | VCoroRaising _ => true
  | _ => false
  end.

Definition TypeError_not_awaitable : exn :=
  {| exn_mro := ["TypeError"; "Exception"; "BaseException"]%string;
     exn_str := Py.lit "object can't be used in 'await' expression";
     exn_text := None; exn_offset := None |}.

(** [await v] *)
Definition await (v : value) : outcome value :=
  match v with
  | VCoro r => Returns r
  | VCoroRaising e => Raises e
  | _ => Raises TypeError_not_awaitable
  end.

(** The [for i in range(2)] loop, [range_] the indices still to come. The
    first component counts the [await]s performed. *)
Fixpoint maybe_await_loop (range_ : list Z) (awaits : nat) (coro : value)
    : nat * outcome value :=
  match range_ with
  | [] => (awaits, Returns coro)
  | _ :: range' =>
      if isawaitable coro then
        match await coro with
        | Returns r => maybe_await_loop range' (S awaits) r
        | Raises e => (S awaits, Raises e)
        end
      else (awaits, Returns coro)
  end.

Definition maybe_await_counted (coro : value) : nat * outcome value :=
  maybe_await_loop [0; 1] 0%nat coro.

(** [await maybe_await(coro)] *)
Definition maybe_await (coro : value) : outcome value :=
  snd (maybe_await_counted coro).

(** The bounded loop of the design notes: unwrap an awaitable value up to
    [maxSteps] times, then return the value as it is. *)
Fixpoint resolve (maxSteps : nat) (v : value) : outcome value :=
  match maxSteps with
  | O => Returns v
  | S n =>
      match v with
      | VCoro r => resolve n r
      | VCoroRaising e => Raises e
      | _ => Returns v
      end
  end.

(** ** [cleanup_code], lines 160-167 *)

Definition backticks3 : Py.str := Py.lit "```".

(** The next character exists and is white space: the lookahead [(?=\s)]. *)
Definition lookahead_space (s : Py.str) : bool :=
  match s with
  | c :: _ => Py.isspace c
  | [] => false
  end.

(** [START_CODE_BLOCK_RE.sub("", content)]: the pattern is anchored at the
    start, so at most one match is removed; the alternatives are tried in
    the order the pattern writes them. *)
Definition START_CODE_BLOCK_RE_sub (content : Py.str) : Py.str :=
  if Py.startswith content (Py.lit "```python")
     && lookahead_space (drop 9 content) then drop 9 content
  else if Py.startswith content (Py.lit "```py")
          && lookahead_space (drop 5 content) then drop 5 content
  else if Py.startswith content backticks3 then drop 3 content
  else content.

Definition cleanup_code (content : Py.str) : Py.str :=
  if Py.startswith content backticks3 && Py.endswith content backticks3
  then Py.slice_to (START_CODE_BLOCK_RE_sub content) (-3)
  else Py.strip_chars content (Py.lit "` " ++ [Py.nl]).

(** ** [textwrap.indent] *)

(** The line boundaries of [str.splitlines]. *)
Definition is_line_boundary (c : Py.char) : bool :=
  ((10 <=? c) && (c <=? 13) || (28 <=? c) && (c <=? 30)
   || (c =? 133) || (c =? 8232) || (c =? 8233))%N.

(** [s.splitlines(True)]; [line] is the current line so far, reversed. *)
Fixpoint splitlines_keepends (line : Py.str) (s : Py.str) : list Py.str :=
  match s with
  | [] => match line with [] => [] | _ => [rev line] end
  | c :: s' =>
      if is_line_boundary c then
        match s' with
        | c' :: s'' =>
            if ((c =? 13) && (c' =? 10))%N
            then rev (c' :: c :: line) :: splitlines_keepends [] s''
            else rev (c :: line) :: splitlines_keepends [] s'
        | [] => [rev (c :: line)]
        end
      else splitlines_keepends (c :: line) s'
  end.

(** [textwrap.indent(text, prefix)]: lines that are all white space get no
    prefix. *)
Definition textwrap_indent (text prefix : Py.str) : Py.str :=
  concat (map (fun line =>
                 match Py.strip line with
                 | [] => line
                 | _ => prefix ++ line
                 end)
              (splitlines_keepends [] text)).

(** ** The cog, the chat service and the monad of the command handlers *)

(** The invocation context [ctx], as far as the cog reads it. *)
Record Context : Type := {
  ctx_author_id : Z;          (* ctx.author.id *)
  ctx_channel_id : Z;         (* ctx.channel.id *)
  ctx_prefix : Py.str;        (* ctx.prefix *)
  ctx_token : Py.str;         (* ctx.bot.http.token *)
  ctx_message : message;      (* ctx.message *)
  ctx_add_reactions : bool    (* ctx.channel.permissions_for(ctx.me).add_reactions *)
}.

(** The attributes of [Dev], lines 140-144. A session is [True] while it
    runs and [False] while it is paused; a channel without a session has no
    entry. *)
Record Dev : Type := {
  _last_result : value;
  sessions : gmap Z bool;
  env_extensions : list (string * (Context -> outcome value))
}.

(** [self._last_result = v] and [self.sessions = s]. *)
Definition with_last_result (v : value) (self : Dev) : Dev :=
  {| _last_result := v; sessions := sessions self;
     env_extensions := env_extensions self |}.

Definition with_sessions (s : gmap Z bool) (self : Dev) : Dev :=
  {| _last_result := _last_result self; sessions := s;
     env_extensions := env_extensions self |}.

(** What a handler asks of the chat service. *)
Inductive action : Type :=
| Send (content : Py.str)                 (* ctx.send(content) *)
| WaitFor (timeout : Z)                   (* ctx.bot.wait_for(..., timeout=timeout) *)
| Delete (m : message)                    (* m.delete() *)
| DeleteMessages (ms : list message)      (* ctx.channel.delete_messages(ms) *)
| AddReaction.                            (* ctx.message.add_reaction(...) *)

(** The service as a handler meets it. Every answer may depend on the
    actions performed so far. [arriving] lists the messages dispatched while
    a [wait_for] is pending, the earliest first. *)
Record service : Type := {
  send_result : list action -> Py.str -> outcome message;
  arriving : list action -> list message;
  delete_result : list action -> message -> outcome unit;
  delete_messages_result : list action -> list message -> outcome unit;
  add_reaction_result : list action -> outcome unit
}.

(** What persists when a handler raises: the actions performed and the
    attributes of the cog. *)
Record world : Type := {
  actions : list action;
  cog : Dev
}.

Definition M (A : Type) : Type := service -> world -> outcome A * world.

#[global] Instance M_ret : MRet M := fun A a _ w => (Returns a, w).

#[global] Instance M_bind : MBind M := fun A B k m svc w =>
  match m svc w with
  | (Returns a, w') => k a svc w'
  | (Raises e, w') => (Raises e, w')
  end.

Definition raise {A : Type} (e : exn) : M A := fun _ w => (Raises e, w).

Definition lift {A : Type} (o : outcome A) : M A := fun _ w => (o, w).

(** Reading and assigning attributes of [self]. *)
Definition get_self : M Dev := fun _ w => (Returns (cog w), w).

Definition set_self (f : Dev -> Dev) : M unit := fun _ w =>
  (Returns tt, {| actions := actions w; cog := f (cog w) |}).

(** One action: it is recorded, and the service answers from the actions
    before it. *)
Definition perform {A : Type} (a : action)
    (answer : service -> list action -> outcome A) : M A := fun svc w =>
  (answer svc (actions w), {| actions := actions w ++ [a]; cog := cog w |}).

(** [try: a = body / except classes as e: handler(e) / else: orelse(a)].
    Only [body] is guarded. Several [except] clauses are one [handler] that
    tests them in order. *)
Definition try_except_else {A B : Type} (body : M A) (classes : list string)
    (handler : exn -> M B) (orelse : A -> M B) : M B := fun svc w =>
  match body svc w with
  | (Returns a, w') => orelse a svc w'
  | (Raises e, w') =>
      if isinstance_any e classes then handler e svc w'
      else (Raises e, w')
  end.

(** [with contextlib.suppress(classes): body] *)
Definition suppress (classes : list string) (body : M unit) : M unit :=
  try_except_else body classes (fun _ => mret tt) mret.

(** [await ctx.send(content)] *)
Definition send (content : Py.str) : M message :=
  perform (Send content) (fun svc log => send_result svc log content).

(** [await m.delete()] *)
Definition delete_message (m : message) : M unit :=
  perform (Delete m) (fun svc log => delete_result svc log m).

(** [await ctx.channel.delete_messages(ms)] *)
Definition delete_messages (ms : list message) : M unit :=
  perform (DeleteMessages ms)
    (fun svc log => delete_messages_result svc log ms).

(** [await ctx.message.add_reaction(...)] *)
Definition add_reaction : M unit :=
  perform AddReaction add_reaction_result.

Definition TimeoutError : exn :=
  {| exn_mro := ["TimeoutError"; "Exception"; "BaseException"]%string;
     exn_str := []; exn_text := None; exn_offset := None |}.

(** [await ctx.bot.wait_for("message", check=check, timeout=timeout)] with
    a timeout: the first arriving message that passes [check], or
    [asyncio.TimeoutError]. *)
Definition wait_for (check : message -> bool) (timeout : Z) : M message :=
  perform (WaitFor timeout)
    (fun svc log =>
       match List.find check (arriving svc log) with
       | Some m => Returns m
       | None => Raises TimeoutError
       end).

(** ** [send_interactive], lines 74-123 *)

(** [str(n)] for an integer. *)
Definition str_of_int (n : Z) : Py.str :=
  Py.lit (DecimalString.NilZero.string_of_int (Z.to_int n)).

(** [s.lower()] on ASCII letters. No code point outside ASCII has a
    lower-case form among the letters of ["more"]. *)
Definition ascii_lower (s : Py.str) : Py.str := map Re.lower s.

(** The page as sent, lines 81-84. *)
Definition render_page (box_lang : option Py.str) (page : Py.str) : Py.str :=
  match box_lang with
  | None => page
  | Some lang => backticks3 ++ lang ++ [Py.nl] ++ page ++ [Py.nl] ++ backticks3
  end.

(** The prompt, lines 88-97. *)
Definition remaining_prompt (n_remaining : Z) : Py.str :=
  let plural := if n_remaining =? 1 then [] else Py.lit "s" in
  let is_are := if n_remaining =? 1 then Py.lit "is" else Py.lit "are" in
  Py.lit "There " ++ is_are ++ Py.lit " still " ++ str_of_int n_remaining
  ++ Py.lit " message" ++ plural ++ Py.lit " remaining. "
  ++ Py.lit "Type `more` to continue.".

(** The [predicate] of lines 99-104. *)
Definition more_predicate (ctx : Context) (m : message) : bool :=
  (ctx_author_id ctx =? msg_author_id m)
  && (ctx_channel_id ctx =? msg_channel_id m)
  && Py.eqb (ascii_lower (msg_content m)) (Py.lit "more").

Definition HTTPException : string := "HTTPException".

(** The [for] loop of lines 80-122 from index [idx] on, [total] being
    [len(messages)] and [ret] the handles so far. *)
Fixpoint send_interactive_loop (ctx : Context) (box_lang : option Py.str)
    (timeout : Z) (total idx : Z) (pages : list Py.str) (ret : list message)
    : M (list message) :=
  match pages with
  | [] => mret ret
  | page :: pages' =>
      msg ← send (render_page box_lang page);
      let ret := ret ++ [msg] in
      let n_remaining := total - idx in
      if 0 <? n_remaining then
        query ← send (remaining_prompt n_remaining);
        try_except_else (wait_for (more_predicate ctx) timeout)
          ["TimeoutError"%string]
          (fun _ =>
             suppress [HTTPException] (delete_message query);;
             mret ret)                                  (* break *)
          (fun resp =>
             try_except_else (delete_messages [query; resp])
               [HTTPException; "AttributeError"%string]
               (fun _ => suppress [HTTPException] (delete_message query))
               mret;;
             send_interactive_loop ctx box_lang timeout total (idx + 1)
               pages' ret)
      else
        send_interactive_loop ctx box_lang timeout total (idx + 1) pages' ret
  end.

(** [await send_interactive(ctx, messages, box_lang, timeout)], [messages]
    being what [tuple(messages)] holds. *)
Definition send_interactive (ctx : Context) (messages : list Py.str)
    (box_lang : option Py.str) (timeout : Z) : M (list message) :=
  send_interactive_loop ctx box_lang timeout (Z.of_nat (length messages)) 1
    messages [].

(** [await tick(ctx)], lines 126-134. *)
Definition RuntimeError : exn :=
  {| exn_mro := ["RuntimeError"; "Exception"; "BaseException"]%string;
     exn_str := []; exn_text := None; exn_offset := None |}.

Definition tick (ctx : Context) : M bool :=
  try_except_else
    (if negb (ctx_add_reactions ctx) then raise RuntimeError
     else add_reaction)
    ["RuntimeError"%string; HTTPException]
    (fun _ => mret false)
    (fun _ => mret true).

(** ** [get_environment], lines 192-213 *)

(** The bindings of the dictionary display, lines 193-206, in order. *)
Definition base_bindings (self : Dev) (ctx : Context)
    : list (string * value) :=
  [ ("bot", VHost "bot"); ("ctx", VHost "ctx");
    ("channel", VHost "channel"); ("author", VHost "author");
    ("guild", VHost "guild"); ("message", VMsg (ctx_message ctx));
    ("asyncio", VHost "asyncio"); ("aiohttp", VHost "aiohttp");
    ("discord", VHost "discord"); ("commands", VHost "commands");
    ("_", _last_result self); ("__name__", VStr (Py.lit "__main__")) ]%string.


(** The loop of lines 207-212 over the items still to come. [calls] are the
    names whose provider has been called so far. *)
Fixpoint extend_environment (ctx : Context)
    (items : list (string * (Context -> outcome value)))
    (calls : list string) (env : gmap string value)
    : list string * outcome (gmap string value) :=
  match items with
  | [] => (calls, Returns env)
  | (name, value_) :: items' =>
      match value_ ctx with
      | Returns v =>
          extend_environment ctx items' (calls ++ [name]) (<[name := v]> env)
      | Raises e =>
          if isinstance e "Exception"
          then extend_environment ctx items' (calls ++ [name])
                 (<[name := VExc e]> env)
          else (calls ++ [name], Raises e)
      end
  end.

(** [self.get_environment(ctx)] with the names of the providers it called. *)
Definition get_environment_calls (self : Dev) (ctx : Context)
    : list string * outcome (gmap string value) :=
  extend_environment ctx (env_extensions self) []
    (list_to_map (base_bindings self ctx)).

Definition get_environment (ctx : Context) : M (gmap string value) :=
  self ← get_self;
  lift (snd (get_environment_calls self ctx)).

(** ** The evaluation engine *)

Inductive compile_mode : Type := mode_eval | mode_exec.

(** A run of compiled code: the globals dictionary as the run left it, what
    it wrote to the standard output, and how it ended. *)
Record execution : Type := {
  globals_after : gmap string value;
  printed : Py.str;
  result : outcome value
}.

(** The Python interpreter, which the cog only calls.
    - [compile_error source mode]: what
      [compile(source, filename, mode, flags=..., optimize=0)] raises, if it
      raises;
    - [run source mode env]: the compiled source run with [env] as globals
      ([eval(compiled, env)], [exec(compiled, env)],
      [types.FunctionType(code, env)()]);
    - [call_func func env]: [await func()] for the function object that
      [exec] left in [env];
    - [str_ v]: [str(v)], also what an f-string makes of [v];
    - [format_exc e]: [traceback.format_exc()] while [e] is handled.
    The code that is run reaches the cog through the globals dictionary it
    is given and through what it returns or raises; it does not assign
    attributes of the cog behind the handler's back. *)
Record engine : Type := {
  compile_error : Py.str -> compile_mode -> option exn;
  run : Py.str -> compile_mode -> gmap string value -> execution;
  call_func : value -> gmap string value -> execution;
  str_ : value -> Py.str;
  format_exc : exn -> Py.str
}.

Definition KeyError (key : Py.str) : exn :=
  {| exn_mro := ["KeyError"; "LookupError"; "Exception"; "BaseException"]%string;
     exn_str := key; exn_text := None; exn_offset := None |}.

(** Something that reaches a running session loop while it waits at line
    351: a message, or the [repl pause] command handled in another task. *)
Inductive event : Type :=
| Incoming (m : message)
| PauseCommand (ctx : Context) (toggle : option bool).

(** Where [repl] stands after the events given to it: the handler returned
    (the loop was left by [quit], or never entered), or the loop waits for
    the next message with this environment. *)
Inductive loop_end : Type :=
| Exited
| Waiting (env : gmap string value).

Section Cog.

Variable py : engine.

(** What [str.format] raises for a format specification it cannot use. *)
Definition format_ValueError (msg : Py.str) : exn :=
  {| exn_mro := ["ValueError"; "Exception"; "BaseException"]%string;
     exn_str := msg; exn_text := None; exn_offset := None |}.

(** The field [{1:>{0.offset}}] of line 178: the caret under the
    specification [">" + str(e.offset)]. An offset [n] of at least 0 is a
    width, and the caret is set flush right in it ([">0"] reads as the
    zero flag with no width, and pads nothing); a negative offset puts a
    sign into the specification and [None] puts a name there, and
    [str.format] raises [ValueError] for both. *)
Definition caret_line (offset : option Z) : outcome Py.str :=
  match offset with
  | None => Raises (format_ValueError (Py.lit "Invalid format specifier"))
  | Some n =>
      if n <? 0 then
        Raises (format_ValueError
                  (Py.lit "Sign not allowed in string format specifier"))
      else Returns (repeat 32%N (Z.to_nat (n - 1)) ++ Py.lit "^")
  end.

(** [get_syntax_error(e)], lines 170-179. The text is formatted when the
    function is called, before [get_pages] gets it, so that a
    [ValueError] of [str.format] is raised by the call itself. *)
Definition get_syntax_error (e : exn) : outcome generated :=
  match exn_text e with
  | None => Returns (get_pages (type_name e ++ Py.lit ": " ++ exn_str e))
  | Some text =>
      match caret_line (exn_offset e) with
      | Raises err => Raises err
      | Returns caret =>
          Returns
            (get_pages
               (text ++ [Py.nl] ++ caret ++ [Py.nl]
                ++ type_name e ++ Py.lit ": " ++ exn_str e))
      end
  end.

(** [compile(source, ...)] followed by [eval(compiled, env)] and
    [maybe_await], as the [try] block of lines 242-243 chains them. *)
Definition compile_eval_await (source : Py.str) (env : gmap string value)
    : outcome value :=
  match compile_error py source mode_eval with
  | Some e => Raises e
  | None =>
      match result (run py source mode_eval env) with
      | Raises e => Raises e
      | Returns v => maybe_await v
      end
  end.

(** [debug], lines 238-257. *)
Definition debug (ctx : Context) (code : Py.str) : M unit :=
  env ← get_environment ctx;
  let code := cleanup_code code in
  try_except_else (lift (compile_eval_await code env))
    ["SyntaxError"; "Exception"]%string
    (fun e =>
       if isinstance e "SyntaxError" then
         pages ← lift (get_syntax_error e);
         send_interactive ctx (yielded pages) (Some (Py.lit "py")) 15;;
         mret tt
       else
         send_interactive ctx
           (yielded (get_pages (type_name e ++ Py.lit ": " ++ exn_str e)))
           (Some (Py.lit "py")) 15;;
         mret tt)
    (fun result =>
       set_self (with_last_result result);;
       let result := sanitize_output (ctx_token ctx) (str_ py result) in
       tick ctx;;
       send_interactive ctx (yielded (get_pages result))
         (Some (Py.lit "py")) 15;;
       mret tt).

(** Line 285: the body as the source of a function definition. *)
Definition eval_source (body : Py.str) : Py.str :=
  Py.lit "async def func():" ++ [Py.nl]
  ++ textwrap_indent body (Py.lit "  ").

(** Lines 288-289: [compile] in [exec] mode and [exec(compiled, env)];
    the globals afterwards. *)
Definition compile_exec (source : Py.str) (env : gmap string value)
    : outcome (gmap string value) :=
  match compile_error py source mode_exec with
  | Some e => Raises e
  | None =>
      let x := run py source mode_exec env in
      match result x with
      | Raises e => Raises e
      | Returns _ => Returns (globals_after x)
      end
  end.

(** [_eval], lines 281-311. *)
Definition _eval (ctx : Context) (body : Py.str) : M unit :=
  env ← get_environment ctx;
  let body := cleanup_code body in
  let to_compile := eval_source body in
  try_except_else (lift (compile_exec to_compile env))
    ["SyntaxError"%string]
    (fun e =>
       pages ← lift (get_syntax_error e);
       send_interactive ctx (yielded pages) (Some (Py.lit "py")) 15;;
       mret tt)
    (fun env =>
       match env !! "func"%string with
       | None => raise (KeyError (Py.lit "func"))
       | Some func =>
           let x := call_func py func env in
           (* [result] stays [None] when the call raises *)
           '(result, printed) ←
             match result x with
             | Raises e =>
                 mret (VNone, printed x ++ format_exc py e)
             | Returns v =>
                 tick ctx;;
                 mret (v, printed x)
             end;
           msg ←
             (if is_not_None result then
                set_self (with_last_result result);;
                mret (printed ++ str_ py result)
              else mret printed);
           let msg := sanitize_output (ctx_token ctx) msg in
           send_interactive ctx (yielded (get_pages msg))
             (Some (Py.lit "py")) 15;;
           mret tt
       end).

(** [repl pause], lines 415-426. *)
Definition pause (ctx : Context) (toggle : option bool) : M unit :=
  self ← get_self;
  match sessions self !! ctx_channel_id ctx with
  | None =>
      send (Py.lit
        "There is no currently running REPL session in this channel.");;
      mret tt
  | Some running =>
      let toggle :=
        match toggle with None => negb running | Some t => t end in
      set_self (fun self =>
          with_sessions (<[ctx_channel_id ctx := toggle]> (sessions self)) self);;
      (if toggle
       then send (Py.lit
              "The REPL session in this channel has been resumed.")
       else send (Py.lit
              "The REPL session in this channel is now paused."));;
      mret tt
  end.

(** The [predicate] of lines 344-349. *)
Definition repl_predicate (ctx : Context) (m : message) : bool :=
  (ctx_author_id ctx =? msg_author_id m)
  && (ctx_channel_id ctx =? msg_channel_id m)
  && Py.startswith (msg_content m) (Py.lit "`").

(** [cleaned in ("quit", "exit", "exit()")] *)
Definition is_quit (cleaned : Py.str) : bool :=
  existsb (Py.eqb cleaned) [Py.lit "quit"; Py.lit "exit"; Py.lit "exit()"].

(** Lines 363-378: the source is compiled for [eval] when it is one line
    and that compiles ([executor = eval]), else for [exec] ([executor is
    None]). A [SyntaxError] of the first compilation is passed over. *)
Definition choose_executor (cleaned : Py.str) : M compile_mode :=
  evaluable ←
    (if Py.count_char cleaned Py.nl =? 0 then
       match compile_error py cleaned mode_eval with
       | None => mret true
       | Some e =>
           if isinstance e "SyntaxError" then mret false else raise e
       end
     else mret false);
  if (evaluable : bool) then mret mode_eval
  else
    match compile_error py cleaned mode_exec with
    | None => mret mode_exec
    | Some e => raise e
    end.

(** Lines 380-391: the code run in the session environment, and what
    [maybe_await] makes of its result. *)
Definition evaluate_in_session (cleaned : Py.str) (mode : compile_mode)
    (env : gmap string value) (response : message)
    : execution * outcome value :=
  let env := <["message"%string := VMsg response]> env in
  let x := run py cleaned mode env in
  (x, match result x with
      | Raises e => Raises e
      | Returns v => maybe_await v
      end).

(** Lines 392-401: the text to show and the session environment after
    the evaluation. *)
Definition session_reply (x : execution) (awaited : outcome value)
    : Py.str * gmap string value :=
  let value_ := printed x in
  match awaited with
  | Raises e => (value_ ++ format_exc py e, globals_after x)
  | Returns result =>
      if is_not_None result then
        (value_ ++ str_ py result,
         <["_"%string := result]> (globals_after x))
      else (value_, globals_after x)
  end.

(** One pass of the [while True] body after [wait_for] returned
    [response], lines 353-410. [None] is the [return] of line 361; [Some
    env] goes round again with the session environment as it is then. *)
Definition repl_body (ctx : Context) (env : gmap string value)
    (response : message) : M (option (gmap string value)) :=
  self ← get_self;
  match sessions self !! ctx_channel_id ctx with
  | None => raise (KeyError (str_of_int (ctx_channel_id ctx)))
  | Some false => mret (Some env)                     (* continue *)
  | Some true =>
      let cleaned := cleanup_code (msg_content response) in
      if is_quit cleaned then
        send (Py.lit "Exiting.");;
        set_self (fun self =>
          with_sessions (delete (ctx_channel_id ctx) (sessions self)) self);;
        mret None                                     (* return *)
      else
        try_except_else (choose_executor cleaned)
          ["SyntaxError"%string]
          (fun e =>
             pages ← lift (get_syntax_error e);
             send_interactive ctx (yielded pages) (Some (Py.lit "py")) 15;;
             mret (Some env))                         (* continue *)
          (fun mode =>
             let '(x, awaited) :=
               evaluate_in_session cleaned mode env response in
             let '(msg, env) := session_reply x awaited in
             let msg := sanitize_output (ctx_token ctx) msg in
             try_except_else
               (send_interactive ctx (yielded (get_pages msg))
                  (Some (Py.lit "py")) 15)
               ["Forbidden"%string; HTTPException]
               (fun e =>
                  if isinstance e "Forbidden" then mret tt
                  else
                    send (Py.lit "Unexpected error: `" ++ exn_str e
                          ++ Py.lit "`");;
                    mret tt)
               (fun _ => mret tt);;
             mret (Some env))
  end.

(** A handler run in another task: what it raises does not reach the
    loop. *)
Definition in_another_task {A : Type} (m : M A) : M unit := fun svc w =>
  (Returns tt, snd (m svc w)).

(** The [while True] loop of lines 343-410 over the events that reach it
    while it waits. *)
Fixpoint repl_loop (ctx : Context) (env : gmap string value)
    (events : list event) : M loop_end :=
  match events with
  | [] => mret (Waiting env)
  | Incoming m :: events' =>
      if repl_predicate ctx m then
        next ← repl_body ctx env m;
        match next with
        | None => mret Exited
        | Some env' => repl_loop ctx env' events'
        end
      else repl_loop ctx env events'
  | PauseCommand ctx' toggle :: events' =>
      in_another_task (pause ctx' toggle);;
      repl_loop ctx env events'
  end.

(** The environment a new session starts with, lines 334-336. *)
Definition session_environment (ctx : Context) : M (gmap string value) :=
  env ← get_environment ctx;
  let env := <["__builtins__"%string := VHost "__builtins__"]> env in
  mret (<["_"%string := VNone]> env).

(** [repl], lines 322-410. *)
Definition repl (ctx : Context) (events : list event) : M loop_end :=
  self ← get_self;
  match sessions self !! ctx_channel_id ctx with
  | Some running =>
      (if (running : bool)
       then send (Py.lit
         "Already running a REPL session in this channel. Exit it with `quit`.")
       else send (Py.lit "Already running a REPL session in this channel."
                  ++ Py.lit " Resume the REPL with `" ++ ctx_prefix ctx
                  ++ Py.lit "repl resume`."));;
      mret Exited
  | None =>
      env ← session_environment ctx;
      set_self (fun self =>
          with_sessions (<[ctx_channel_id ctx := true]> (sessions self)) self);;
      send (Py.lit
              "Enter code to execute or evaluate. `exit()` or `quit` to exit."
            ++ Py.lit " `" ++ ctx_prefix ctx ++ Py.lit "repl pause` to pause.");;
      repl_loop ctx env events
  end.

End Cog.

(** ** Vocabulary of the statements *)

(** The characters of a text that are not white space, in order. *)
Definition visible (s : Py.str) : Py.str :=
  List.filter (fun c => negb (Py.isspace c)) s.

(** A split point as [rfind] reports it under a limit: no match, or an
    index from 1 up to the limit. *)
Definition split_ok (limit x : Z) : Prop := x = -1 ∨ (1 ≤ x ∧ x ≤ limit).

(** A handler that leaves an attribute of the cog as it was, however it
    ends. *)
Definition preserves {X A : Type} (attr : Dev -> X) (m : M A) : Prop :=
  ∀ (svc : service) (w : world), attr (cog (snd (m svc w))) = attr (cog w).

(** How the evaluation of [debug] ends, lines 238-243. *)
Definition evaluated_by_debug (py : engine) (self : Dev) (ctx : Context)
    (code : Py.str) : outcome value :=
  match snd (get_environment_calls self ctx) with
  | Raises e => Raises e
  | Returns env => compile_eval_await py (cleanup_code code) env
  end.

(** How the execution of [_eval] ends, lines 281-297: what [await func()]
    returned, or what was raised up to there. *)
Definition executed_by_eval (py : engine) (self : Dev) (ctx : Context)
    (body : Py.str) : outcome value :=
  match snd (get_environment_calls self ctx) with
  | Raises e => Raises e
  | Returns env =>
      match compile_exec py (eval_source (cleanup_code body)) env with
      | Raises e => Raises e
      | Returns env' =>
          match env' !! "func"%string with
          | None => Raises (KeyError (Py.lit "func"))
          | Some func => result (call_func py func env')
          end
      end
  end.

(** ** Stand-ins for the examples *)

(** A service that accepts everything and delivers no message: a sent
    message gets the number of actions before it as its id. *)
Definition quiet_service : service :=
  {| send_result := fun log content =>
       Returns {| msg_id := Z.of_nat (length log); msg_author_id := 0;
                  msg_channel_id := 7; msg_content := content |};
     arriving := fun _ => [];
     delete_result := fun _ _ => Returns tt;
     delete_messages_result := fun _ _ => Returns tt;
     add_reaction_result := fun _ => Returns tt |}.

(** An interpreter for which every source compiles, an expression
    evaluates to [o], a statement sequence defines [func] and calling
    [func] ends as [o]; nothing is printed. *)
Definition constant_engine (o : outcome value) : engine :=
  {| compile_error := fun _ _ => None;
     run := fun _ mode env =>
       match mode with
       | mode_eval => {| globals_after := env; printed := []; result := o |}
       | mode_exec =>
           {| globals_after := <["func"%string := VHost "func"]> env;
              printed := []; result := Returns VNone |}
       end;
     call_func := fun _ env =>
       {| globals_after := env; printed := []; result := o |};
     str_ := fun v => match v with VStr s => s | _ => Py.lit "<object>" end;
     format_exc := fun e => type_name e ++ Py.lit ": " ++ exn_str e |}.

Definition Forbidden : exn :=
  {| exn_mro := ["Forbidden"; "HTTPException"; "DiscordException";
                 "Exception"; "BaseException"]%string;
     exn_str := Py.lit "403 Forbidden"; exn_text := None;
     exn_offset := None |}.

(** The same service without the permission to delete messages. *)
Definition no_delete_service : service :=
  {| send_result := send_result quiet_service;
     arriving := arriving quiet_service;
     delete_result := fun _ _ => Raises Forbidden;
     delete_messages_result := fun _ _ => Raises Forbidden;
     add_reaction_result := add_reaction_result quiet_service |}.

(** The owner (user 42) invoking a command in channel 7. *)
Definition owner_ctx : Context :=
  {| ctx_author_id := 42; ctx_channel_id := 7; ctx_prefix := Py.lit "!";
     ctx_token := Py.lit "ABC123";
     ctx_message := {| msg_id := 1000; msg_author_id := 42;
                       msg_channel_id := 7; msg_content := Py.lit "!repl" |};
     ctx_add_reactions := true |}.

(** A message of the owner in channel 7. *)
Definition owner_says (content : Py.str) : message :=
  {| msg_id := 1001; msg_author_id := 42; msg_channel_id := 7;
     msg_content := content |}.

(** A fresh cog, lines 140-144. *)
Definition new_Dev : Dev :=
  {| _last_result := VNone; sessions := ∅; env_extensions := [] |}.


Definition ZeroDivisionError : exn :=
  {| exn_mro := ["ZeroDivisionError"; "ArithmeticError"; "Exception";
                 "BaseException"]%string;
     exn_str := Py.lit "division by zero"; exn_text := None;
     exn_offset := None |}.

(** ** [mock] and [mock_msg], lines 430-462 *)

(** A message as the replay commands read it: the message itself and what
    it carries besides its text. *)
Record full_message : Type := {
  fm_message : message;
  fm_embeds : list Z;          (* msg.embeds *)
  fm_attachments : list Z;     (* msg.attachments *)
  fm_stickers : list Z         (* msg.stickers *)
}.

(** How a replay command ends: [ctx.bot.dispatch("message", msg)], or
    [ctx.send_help(ctx.command)]. *)
Inductive replay : Type :=
| Dispatch (msg : full_message)
| SendHelp.

(** [msg = copy(msg); msg.author = user; msg.content = content] *)
Definition replayed (msg : full_message) (user : Z) (content : Py.str)
    : full_message :=
  {| fm_message := {| msg_id := msg_id (fm_message msg);
                      msg_author_id := user;
                      msg_channel_id := msg_channel_id (fm_message msg);
                      msg_content := content |};
     fm_embeds := fm_embeds msg;
     fm_attachments := fm_attachments msg;
     fm_stickers := fm_stickers msg |}.

(** [not xs] for a list or a string. *)
Definition is_empty {A : Type} (xs : list A) : bool :=
  match xs with [] => true | _ => false end.

(** [mock], lines 436-440; [msg] is [ctx.message] and [prefix] is
    [ctx.prefix]. *)
Definition mock (msg : full_message) (prefix : Py.str) (user : Z)
    (command : Py.str) : replay :=
  Dispatch (replayed msg user (prefix ++ command)).

(** [mock_msg], lines 454-462. *)
Definition mock_msg (msg : full_message) (user : Z) (content : Py.str)
    : replay :=
  if is_empty content && is_empty (fm_embeds msg)
     && is_empty (fm_attachments msg) && is_empty (fm_stickers msg)
  then SendHelp
  else Dispatch (replayed msg user content).

(** ** More vocabulary *)

(** A handler that only adds actions of an allowed kind to those already
    performed, however it ends. *)
Definition performs_only {A : Type} (allowed : action -> Prop) (m : M A)
    : Prop :=
  ∀ (svc : service) (w : world),
    ∃ performed : list action,
      actions (snd (m svc w)) = actions w ++ performed
      ∧ Forall allowed performed.

(** Any action but adding a reaction. *)
Definition no_reaction (a : action) : Prop := a ≠ AddReaction.

(** ** More stand-ins *)

(** A service on which the owner answers every prompt with [MORE]. *)
Definition answering_service : service :=
  {| send_result := send_result quiet_service;
     arriving := fun _ => [owner_says (Py.lit "MORE")];
     delete_result := delete_result quiet_service;
     delete_messages_result := fun _ _ => Raises Forbidden;
     add_reaction_result := add_reaction_result quiet_service |}.

(** A channel the bot may not write to. *)
Definition closed_service : service :=
  {| send_result := fun _ _ => Raises Forbidden;
     arriving := fun _ => [];
     delete_result := fun _ _ => Raises Forbidden;
     delete_messages_result := fun _ _ => Raises Forbidden;
     add_reaction_result := fun _ => Raises Forbidden |}.

(** A [SyntaxError] of the compiler for the source line [text], reported
    at [offset]. *)
Definition SyntaxError_at (text : Py.str) (offset : option Z) : exn :=
  {| exn_mro := ["SyntaxError"; "Exception"; "BaseException"]%string;
     exn_str := Py.lit "invalid syntax (<repl session>, line 1)";
     exn_text := Some text; exn_offset := offset |}.

(** An interpreter for which no source compiles: every compilation raises
    the [SyntaxError] for its source, reported at column 1. *)
Definition rejecting_engine : engine :=
  {| compile_error := fun source _ => Some (SyntaxError_at source (Some 1));
     run := run (constant_engine (Returns VNone));
     call_func := call_func (constant_engine (Returns VNone));
     str_ := str_ (constant_engine (Returns VNone));
     format_exc := format_exc (constant_engine (Returns VNone)) |}.

Definition ConnectionError : exn :=
  {| exn_mro := ["ConnectionError"; "OSError"; "Exception";
                 "BaseException"]%string;
     exn_str := Py.lit "Connection lost"; exn_text := None;
     exn_offset := None |}.

(** A service that accepts every send and delivers no message, and on
    which the connection is lost whenever a message is to be deleted. *)
Definition lost_on_delete_service : service :=
  {| send_result := send_result quiet_service;
     arriving := arriving quiet_service;
     delete_result := fun _ _ => Raises ConnectionError;
     delete_messages_result := fun _ _ => Raises ConnectionError;
     add_reaction_result := add_reaction_result quiet_service |}.

(** * Properties *)

(** ** The pager *)

Lemma rfind_scan_range (s sub : Py.str) (start k : nat) :
  Py.rfind_scan s sub start k = -1
  ∨ (Z.of_nat start ≤ Py.rfind_scan s sub start k
     ∧ Py.rfind_scan s sub start k < Z.of_nat start + Z.of_nat k).
Proof.
  induction k as [|k IH]; simpl.
  - by left.
  - destruct (Py.startswith _ _).
    + right. lia.
    + destruct IH as [IH|IH]; [by left|right; lia].
Qed.

Lemma rfind_range (s sub : Py.str) (e : Z) :
  0 ≤ e →
  Py.rfind s sub 1 e = -1 ∨ (1 ≤ Py.rfind s sub 1 e ∧ Py.rfind s sub 1 e ≤ e).
Proof.
  intros He. unfold Py.rfind.
  assert (Hlen : 0 ≤ Py.len sub) by (unfold Py.len; lia).
  assert (Hn : 0 ≤ Py.len s) by (unfold Py.len; lia).
  replace (1 <? 0) with false by done.
  set (e' := if Py.len s <? e then Py.len s
             else if e <? 0 then Z.max 0 (e + Py.len s) else e).
  assert (He' : e' ≤ e).
  { subst e'. repeat case_match; lia. }
  destruct (e' - 1 <? Py.len sub) eqn:Hc; [by left|].
  destruct (rfind_scan_range s sub (Z.to_nat 1)
              (Z.to_nat (e' - 1 - Py.len sub + 1))) as [H|H]; [by left|].
  right. lia.
Qed.

Lemma found_split_ok (t : Py.str) (delims : list Py.str) (limit : Z) :
  0 ≤ limit →
  Forall (split_ok limit) (map (fun d => Py.rfind t d 1 limit) delims).
Proof.
  intros Hl. apply Forall_map, Forall_forall. intros d _. by apply rfind_range.
Qed.

Lemma next_positive_ok (limit : Z) (xs : list Z) :
  Forall (split_ok limit) xs → split_ok limit (Py.next_positive xs (-1)).
Proof.
  induction 1 as [|x xs Hx _ IH]; simpl.
  - by left.
  - by destruct (0 <? x).
Qed.

Lemma fold_max_ok (limit : Z) (xs : list Z) (x : Z) :
  split_ok limit x → Forall (split_ok limit) xs →
  split_ok limit (fold_left Z.max xs x).
Proof.
  intros Hx Hxs. revert x Hx.
  induction Hxs as [|y xs Hy _ IH]; simpl; intros x Hx; [done|].
  apply IH. unfold split_ok in *. lia.
Qed.

Lemma closest_delim_None (t : Py.str) (delims : list Py.str) (priority : bool)
    (limit : Z) :
  closest_delim t delims priority limit = None ↔
  delims = [] ∧ priority = false.
Proof.
  unfold closest_delim. destruct priority, delims; simpl;
    split; try done; intros [? ?]; done.
Qed.

Lemma closest_delim_range (t : Py.str) (delims : list Py.str)
    (priority : bool) (limit cd : Z) :
  1 ≤ limit →
  closest_delim t delims priority limit = Some cd → 1 ≤ cd ∧ cd ≤ limit.
Proof.
  intros Hl. unfold closest_delim.
  pose proof (found_split_ok t delims limit ltac:(lia)) as Hf.
  destruct priority.
  - intros [= <-].
    destruct (next_positive_ok limit _ Hf) as [->|H]; simpl; [lia|].
    case_match; lia.
  - destruct (map _ delims) as [|x xs] eqn:Hm; simpl; [done|].
    intros [= <-]. inversion Hf as [|? ? Hx Hxs]; subst.
    pose proof (fold_max_ok limit xs x Hx Hxs) as [->|H]; simpl; [lia|].
    case_match; lia.
Qed.

Lemma slice_split (t : Py.str) (cd : Z) :
  Py.slice_to t cd ++ Py.slice_from t cd = t.
Proof. apply take_drop. Qed.

Lemma slice_to_len (t : Py.str) (cd : Z) :
  0 ≤ cd → cd ≤ Py.len t → Py.len (Py.slice_to t cd) = cd.
Proof.
  unfold Py.slice_to, Py.adjust_index, Py.len. intros H0 H1.
  rewrite length_take. destruct (cd <? 0) eqn:E; lia.
Qed.

Lemma slice_from_length (t : Py.str) (cd : Z) :
  0 ≤ cd → cd ≤ Py.len t →
  Z.of_nat (length (Py.slice_from t cd)) = Py.len t - cd.
Proof.
  unfold Py.slice_from, Py.adjust_index, Py.len. intros H0 H1.
  rewrite length_drop. destruct (cd <? 0) eqn:E; lia.
Qed.

(** For an effective limit of at least 1 the loop ends after at most one
    iteration per character, and what it yields are, in order, the
    segments of a partition of the text that are not blank. *)
Lemma pagify_loop_segments (delims : list Py.str) (priority : bool)
    (limit : Z) :
  1 ≤ limit → delims ≠ [] ∨ priority = true →
  ∀ (fuel : nat) (t : Py.str), (length t ≤ fuel)%nat →
  ∃ segments : list Py.str,
    concat segments = t
    ∧ Forall (fun seg => Py.len seg ≤ limit) segments
    ∧ pagify_loop fuel delims priority limit t =
      {| yielded := List.filter (fun seg => 0 <? Py.len (Py.strip seg)) segments;
         stopped := StopIteration |}.
Proof.
  intros Hl HD. induction fuel as [|fuel IH]; intros t Hfuel.
  - destruct t; [|simpl in Hfuel; lia].
    exists [[]]. simpl. split; [done|]. split.
    + constructor; [|constructor]. change (Py.len []) with 0. lia.
    + change (Py.len []) with 0. by replace (limit <? 0) with false by lia.
  - simpl. destruct (limit <? Py.len t) eqn:Hc.
    + destruct (closest_delim t delims priority limit) as [cd|] eqn:Hcd.
      * destruct (closest_delim_range _ _ _ _ _ Hl Hcd) as [Hcd1 Hcd2].
        apply Z.ltb_lt in Hc.
        destruct (IH (Py.slice_from t cd)) as (segs & Hcat & Hall & Hrun).
        { pose proof (slice_from_length t cd). unfold Py.len in *. lia. }
        exists (Py.slice_to t cd :: segs). split; [|split].
        -- simpl. rewrite Hcat. apply slice_split.
        -- constructor; [|done]. rewrite slice_to_len; lia.
        -- rewrite Hrun. simpl. by destruct (0 <? Py.len (Py.strip _)).
      * apply closest_delim_None in Hcd as [-> ->]. by destruct HD.
    + exists [t]. simpl. rewrite app_nil_r. split; [done|]. split.
      * repeat constructor. lia.
      * by destruct (0 <? Py.len (Py.strip t)).
Qed.

Lemma lstrip_with_nil (P : Py.char → bool) (s : Py.str) :
  Py.lstrip_with P s = [] ↔ forallb P s = true.
Proof.
  induction s as [|c s IH]; simpl; [done|].
  destruct (P c); simpl; [done|]. split; discriminate.
Qed.

Lemma lstrip_with_forallb (P : Py.char → bool) (s : Py.str) :
  forallb P (Py.lstrip_with P s) = forallb P s.
Proof.
  induction s as [|c s IH]; simpl; [done|].
  destruct (P c) eqn:E; simpl; [done|]. by rewrite E.
Qed.

Lemma forallb_rev (P : Py.char → bool) (s : Py.str) :
  forallb P (rev s) = forallb P s.
Proof.
  induction s as [|c s IH]; simpl; [done|].
  rewrite forallb_app, IH. simpl. destruct (P c), (forallb P s); done.
Qed.

(** [s.strip()] is empty exactly when [s] is white space throughout. *)
Lemma strip_with_nil (P : Py.char → bool) (s : Py.str) :
  Py.strip_with P s = [] ↔ forallb P s = true.
Proof.
  unfold Py.strip_with, Py.rstrip_with.
  rewrite <- (lstrip_with_forallb P s), <- (forallb_rev P (Py.lstrip_with P s)).
  rewrite <- lstrip_with_nil. split.
  - intros H. apply (f_equal (@rev _)) in H. by rewrite rev_involutive in H.
  - by intros ->.
Qed.

Lemma nonblank_forallb (s : Py.str) :
  (0 <? Py.len (Py.strip s)) = negb (forallb Py.isspace s).
Proof.
  destruct (forallb Py.isspace s) eqn:E; simpl.
  - apply (strip_with_nil Py.isspace) in E. unfold Py.strip. by rewrite E.
  - destruct (Py.strip s) eqn:Hs.
    + apply (strip_with_nil Py.isspace) in Hs. congruence.
    + apply Z.ltb_lt. unfold Py.len. simpl. lia.
Qed.

Lemma visible_blank (s : Py.str) :
  forallb Py.isspace s = true → visible s = [].
Proof.
  induction s as [|c s IH]; simpl; [done|].
  destruct (Py.isspace c); simpl; [done|discriminate].
Qed.

Lemma visible_app (s t : Py.str) : visible (s ++ t) = visible s ++ visible t.
Proof. apply List.filter_app. Qed.

Lemma visible_concat_nonblank (segments : list Py.str) :
  visible (concat (List.filter (fun seg => negb (forallb Py.isspace seg)) segments))
  = visible (concat segments).
Proof.
  induction segments as [|seg segs IH]; simpl; [done|].
  destruct (forallb Py.isspace seg) eqn:E; simpl.
  - rewrite visible_app, (visible_blank seg E). done.
  - by rewrite !visible_app, IH.
Qed.

Lemma Forall_filter_bool {A} (P : A → Prop) (f : A → bool) (l : list A) :
  Forall P l → Forall P (List.filter f l).
Proof.
  induction 1; simpl; [constructor|]. destruct (f x); [by constructor|done].
Qed.

(** C1, amended: for every text [T], every list of delimiters [D] that is
    not empty (or any [D] under [priority]), and [L - S >= 1], the run of
    [pagify] returns, every page it yields has at most [L - S] characters,
    and the pages are, in order, the segments of a partition of [T] into
    consecutive slices that are not white space throughout; so the pages
    joined together are [T] without those blank segments, and hold the
    same characters other than white space as [T], in the same order. *)
Theorem pagify_pages_cover_text (T : Py.str) (D : list Py.str)
    (priority : bool) (S L : Z) :
  1 ≤ L - S → D ≠ [] ∨ priority = true →
  ∃ segments : list Py.str,
    concat segments = T
    ∧ pagify T D priority S L =
        {| yielded :=
             List.filter (fun seg => negb (forallb Py.isspace seg)) segments;
           stopped := StopIteration |}
    ∧ Forall (fun page => Py.len page ≤ L - S)
        (yielded (pagify T D priority S L))
    ∧ visible (concat (yielded (pagify T D priority S L))) = visible T.
Proof.
  intros HL HD. unfold pagify.
  destruct (pagify_loop_segments D priority (L - S) HL HD
              (Datatypes.S (length T)) T) as (segs & Hcat & Hall & Hrun); [lia|].
  exists segs. rewrite Hrun. simpl.
  rewrite (List.filter_ext _ (fun seg => negb (forallb Py.isspace seg)))
    by apply nonblank_forallb.
  repeat split; [done| |].
  - by apply Forall_filter_bool.
  - by rewrite visible_concat_nonblank, Hcat.
Qed.

(** More fuel does not change a run that ended. *)
Lemma pagify_loop_more_fuel (delims : list Py.str) (priority : bool)
    (limit : Z) (fuel : nat) :
  ∀ (t : Py.str) (k : nat),
    stopped (pagify_loop fuel delims priority limit t) ≠ Pending →
    pagify_loop (fuel + k) delims priority limit t
    = pagify_loop fuel delims priority limit t.
Proof.
  induction fuel as [|fuel IH]; intros t k; simpl.
  - destruct (limit <? Py.len t) eqn:Hc; simpl; [done|].
    destruct k; simpl; by rewrite Hc.
  - destruct (limit <? Py.len t); [|done].
    destruct (closest_delim t delims priority limit); [|done].
    destruct (0 <? Py.len (Py.strip _)); simpl; intros H; by rewrite IH.
Qed.

(** With an effective limit of at least 1 the loop has ended after one
    iteration per character, whatever the delimiters. *)
Lemma pagify_loop_ends (delims : list Py.str) (priority : bool) (limit : Z) :
  1 ≤ limit →
  ∀ (fuel : nat) (t : Py.str), (length t ≤ fuel)%nat →
    stopped (pagify_loop fuel delims priority limit t) ≠ Pending
    ∧ (length (yielded (pagify_loop fuel delims priority limit t))
       ≤ length t)%nat.
Proof.
  intros Hl. induction fuel as [|fuel IH]; intros t Hfuel; simpl.
  - destruct t; [|simpl in Hfuel; lia]. change (Py.len []) with 0.
    replace (limit <? 0) with false by lia. simpl. done.
  - destruct (limit <? Py.len t) eqn:Hc.
    + destruct (closest_delim t delims priority limit) as [cd|] eqn:Hcd;
        [|simpl; split; [done|lia]].
      destruct (closest_delim_range _ _ _ _ _ Hl Hcd) as [Hcd1 Hcd2].
      apply Z.ltb_lt in Hc.
      pose proof (slice_from_length t cd ltac:(lia) ltac:(lia)) as Hrest.
      destruct (IH (Py.slice_from t cd)) as [Hend Hlen].
      { unfold Py.len in *. lia. }
      unfold Py.len in *.
      destruct (0 <? _); simpl; split; first [done | lia].
    + simpl. split; [done|]. rewrite nonblank_forallb.
      destruct t; simpl; [lia|]. destruct (negb _); simpl; lia.
Qed.

Lemma rfind_end_0 (t sub : Py.str) : Py.rfind t sub 1 0 = -1.
Proof.
  unfold Py.rfind. assert (0 ≤ Py.len t) by (unfold Py.len; lia).
  assert (0 ≤ Py.len sub) by (unfold Py.len; lia).
  cbv zeta. destruct (Py.len t <? 0) eqn:E1; [lia|].
  change (0 <? 0) with false. change (1 <? 0) with false. cbv iota.
  destruct (0 - 1 <? Py.len sub) eqn:E2; [done|lia].
Qed.

Lemma closest_delim_limit_0 (t : Py.str) (delims : list Py.str)
    (priority : bool) (cd : Z) :
  closest_delim t delims priority 0 = Some cd → cd = 0.
Proof.
  unfold closest_delim.
  assert (Hf : Forall (fun x => x = -1)
                 (map (fun d => Py.rfind t d 1 0) delims)).
  { apply Forall_map, Forall_forall. intros. apply rfind_end_0. }
  destruct priority.
  - assert (Py.next_positive (map (fun d => Py.rfind t d 1 0) delims) (-1) = -1)
      as ->; [|by intros [= <-]].
    induction Hf as [|x xs -> _ IH]; simpl; done.
  - destruct (map _ delims) as [|x xs]; simpl; [done|].
    inversion Hf as [|? ? -> Hxs]; subst.
    assert (fold_left Z.max xs (-1) = -1) as ->; [|by intros [= <-]].
    clear Hf. induction Hxs as [|y ys -> _ IH]; simpl; done.
Qed.

Lemma slice_0 (t : Py.str) : Py.slice_to t 0 = [] ∧ Py.slice_from t 0 = t.
Proof.
  unfold Py.slice_to, Py.slice_from, Py.adjust_index. simpl.
  assert (0 ≤ Py.len t) by (unfold Py.len; lia).
  by replace (Z.to_nat (Z.min 0 (Py.len t))) with 0%nat by lia.
Qed.

(** With an effective limit of 0 a text that is not empty is never split:
    every iteration leaves it as it was and yields nothing. *)
Lemma pagify_loop_limit_0 (delims : list Py.str) (priority : bool)
    (t : Py.str) :
  t ≠ [] → delims ≠ [] ∨ priority = true →
  ∀ fuel : nat,
    pagify_loop fuel delims priority 0 t = {| yielded := []; stopped := Pending |}.
Proof.
  intros Ht HD.
  assert (Hc : (0 <? Py.len t) = true).
  { apply Z.ltb_lt. destruct t; [done|]. unfold Py.len. simpl. lia. }
  induction fuel as [|fuel IH]; simpl; rewrite Hc; [done|].
  destruct (closest_delim t delims priority 0) as [cd|] eqn:Hcd.
  - apply closest_delim_limit_0 in Hcd as ->.
    destruct (slice_0 t) as [-> ->]. by rewrite IH.
  - apply closest_delim_None in Hcd as [-> ->]. by destruct HD.
Qed.

(** With a negative effective limit the loop condition always holds. *)
Lemma pagify_loop_limit_neg (delims : list Py.str) (priority : bool)
    (limit : Z) :
  limit < 0 → delims ≠ [] ∨ priority = true →
  ∀ (fuel : nat) (t : Py.str),
    stopped (pagify_loop fuel delims priority limit t) = Pending.
Proof.
  intros Hl HD.
  assert (Hc : ∀ t, (limit <? Py.len t) = true).
  { intros t. apply Z.ltb_lt. unfold Py.len. lia. }
  induction fuel as [|fuel IH]; intros t; simpl; rewrite Hc; [done|].
  destruct (closest_delim t delims priority limit) as [cd|] eqn:Hcd.
  - destruct (0 <? _); simpl; apply IH.
  - apply closest_delim_None in Hcd as [-> ->]. by destruct HD.
Qed.

(** The fuel [pagify] gives the loop is enough whenever any fuel is. *)
Lemma pagify_loop_fuel (T : Py.str) (D : list Py.str) (priority : bool)
    (S L : Z) (fuel : nat) :
  stopped (pagify_loop fuel D priority (L - S) T) ≠ Pending →
  pagify_loop fuel D priority (L - S) T = pagify T D priority S L.
Proof.
  intros Hend. unfold pagify.
  assert (Hmine : stopped (pagify_loop (Datatypes.S (length T)) D priority
                             (L - S) T) ≠ Pending).
  { destruct (Z_le_gt_dec 1 (L - S)) as [Hl|Hl].
    - apply pagify_loop_ends; [done|lia].
    - destruct (closest_delim T D priority (L - S)) as [cd|] eqn:Hcd.
      + assert (HD : D ≠ [] ∨ priority = true).
        { destruct priority; [by right|left]. intros ->. done. }
        destruct (Z.eq_dec (L - S) 0) as [H0|H0].
        * rewrite H0 in *. destruct T as [|c T]; [done|].
          by rewrite pagify_loop_limit_0 in Hend.
        * by rewrite pagify_loop_limit_neg in Hend by (done || lia).
      + simpl. rewrite Hcd. destruct (L - S <? Py.len T); done. }
  pose proof (pagify_loop_more_fuel D priority (L - S) fuel T
                (Datatypes.S (length T)) Hend) as H1.
  pose proof (pagify_loop_more_fuel D priority (L - S) (Datatypes.S (length T)) T
                fuel Hmine) as H2.
  rewrite <- H1, <- H2. f_equal. lia.
Qed.


(** An example of [pagify_pages_cover_text]: ["hello world"] cut at the
    space under a limit of 8. *)
Lemma pagify_pages_cover_text_hello :
  ∃ segments : list Py.str,
    concat segments = Py.lit "hello world"
    ∧ pagify (Py.lit "hello world") [Py.lit " "] false 4 12 =
        {| yielded :=
             List.filter (fun seg => negb (forallb Py.isspace seg)) segments;
           stopped := StopIteration |}
    ∧ Forall (fun page => Py.len page ≤ 12 - 4)
        (yielded (pagify (Py.lit "hello world") [Py.lit " "] false 4 12))
    ∧ visible (concat (yielded (pagify (Py.lit "hello world") [Py.lit " "]
                                  false 4 12)))
      = visible (Py.lit "hello world").
Proof.
  apply (pagify_pages_cover_text (Py.lit "hello world") [Py.lit " "] false 4 12).
  - lia.
  - left. discriminate.
Defined.

(** C1 as stated fails for an empty list of delimiters without [priority]:
    with limit 1 - 0 = 1 the two-character text ["ab"] is longer than the
    limit, [max] of no candidates raises [ValueError], and nothing of the
    text has been yielded. *)
Lemma pagify_no_delims_raises :
  1 ≤ 1 - 0
  ∧ pagify (Py.lit "ab") [] false 0 1 =
      {| yielded := []; stopped := ValueError |}
  ∧ visible (concat (yielded (pagify (Py.lit "ab") [] false 0 1)))
    ≠ visible (Py.lit "ab").
Proof. split; [lia|]. split; [reflexivity|]. vm_compute. discriminate. Qed.

(** C4, amended: for every [S], [pagify("line1\nline2\nline3", ["\n"],
    priority=True, shorten_by=S, page_length=12+S)] yields exactly
    ["line1\nline2"] and ["\nline3"]: the text is cut at the last line feed
    before index 12, which is index 11, and the line feed stays at the front
    of the remainder. *)
Theorem pagify_three_lines (S : Z) :
  pagify (Py.lit "line1" ++ [Py.nl] ++ Py.lit "line2" ++ [Py.nl]
          ++ Py.lit "line3")
    [[Py.nl]] true S (12 + S)
  = {| yielded := [Py.lit "line1" ++ [Py.nl] ++ Py.lit "line2";
                   [Py.nl] ++ Py.lit "line3"];
       stopped := StopIteration |}.
Proof.
  unfold pagify. replace (12 + S - S) with 12 by lia. reflexivity.
Qed.

(** C4 as stated fails: with [S = 0] the pages are ["line1\nline2"] and
    ["\nline3"], not ["line1\n"], ["line2\n"], ["line3"]. *)
Lemma pagify_three_lines_not_per_line :
  yielded (pagify (Py.lit "line1" ++ [Py.nl] ++ Py.lit "line2" ++ [Py.nl]
                   ++ Py.lit "line3")
             [[Py.nl]] true 0 (12 + 0))
  = [Py.lit "line1" ++ [Py.nl] ++ Py.lit "line2"; [Py.nl] ++ Py.lit "line3"]
  ∧ yielded (pagify (Py.lit "line1" ++ [Py.nl] ++ Py.lit "line2" ++ [Py.nl]
                     ++ Py.lit "line3")
               [[Py.nl]] true 0 (12 + 0))
    ≠ [Py.lit "line1" ++ [Py.nl]; Py.lit "line2" ++ [Py.nl]; Py.lit "line3"].
Proof. split; [reflexivity|]. vm_compute. discriminate. Qed.

(** C5, amended: when the effective limit [L - S] is at least 1, the loop
    of [pagify] has ended (by returning, or by the [ValueError] of [max]
    over no delimiters) after at most one iteration per character of the
    text, with the result [pagify] reports, and it yields at most one page
    per character. *)
Theorem pagify_ends_when_limit_positive (T : Py.str) (D : list Py.str)
    (priority : bool) (S L : Z) (fuel : nat) :
  1 ≤ L - S → (length T ≤ fuel)%nat →
  stopped (pagify_loop fuel D priority (L - S) T) ≠ Pending
  ∧ pagify_loop fuel D priority (L - S) T = pagify T D priority S L
  ∧ (length (yielded (pagify T D priority S L)) ≤ length T)%nat.
Proof.
  intros HL Hfuel.
  destruct (pagify_loop_ends D priority (L - S) HL fuel T Hfuel) as [Hend Hlen].
  pose proof (pagify_loop_fuel T D priority S L fuel Hend) as Heq.
  rewrite <- Heq. done.
Qed.

(** An example of [pagify_ends_when_limit_positive]: ten characters, no
    delimiters, limit 3, ten iterations allowed. *)
Lemma pagify_ends_abcdefghij :
  stopped (pagify_loop 10 [] true (5 - 2) (Py.lit "abcdefghij")) ≠ Pending
  ∧ pagify_loop 10 [] true (5 - 2) (Py.lit "abcdefghij")
    = pagify (Py.lit "abcdefghij") [] true 2 5
  ∧ (length (yielded (pagify (Py.lit "abcdefghij") [] true 2 5))
     ≤ length (Py.lit "abcdefghij"))%nat.
Proof.
  apply (pagify_ends_when_limit_positive (Py.lit "abcdefghij") [] true 2 5 10).
  - lia.
  - simpl. lia.
Defined.

(** C5 as stated fails: an effective limit below 1 is neither rejected nor
    clamped. With [page_length = shorten_by = 12] the limit is 0, and on the
    text ["a"] every iteration cuts off the empty string and keeps ["a"]:
    no amount of iterations ends the loop, and nothing is yielded. *)
Lemma pagify_limit_0_never_ends :
  pagify (Py.lit "a") [[Py.nl]] false 12 12 =
    {| yielded := []; stopped := Pending |}
  ∧ ∀ fuel : nat,
      pagify_loop fuel [[Py.nl]] false (12 - 12) (Py.lit "a") =
        {| yielded := []; stopped := Pending |}.
Proof.
  split; [reflexivity|]. intros fuel.
  apply (pagify_loop_limit_0 [[Py.nl]] false (Py.lit "a")).
  - discriminate.
  - left. discriminate.
Qed.



(** ** The sanitizer *)

(** C3, the case the claim names and the two it misses:
    ["token=ABC123 rest"] is redacted, but the same token in lower case is
    left in the output, and so is a third occurrence, because [re.I] is
    passed where [re.sub] takes [count]: the match is case-sensitive and at
    most [re.I = 2] occurrences are replaced. The call the docstring
    describes redacts both. *)
Theorem sanitize_output_leaks :
  sanitize_output (Py.lit "ABC123") (Py.lit "token=ABC123 rest")
  = Py.lit "token=[EXPUNGED] rest"
  ∧ sanitize_output (Py.lit "ABC123") (Py.lit "token=abc123 rest")
    = Py.lit "token=abc123 rest"
  ∧ sanitize_ignoring_case (Py.lit "ABC123") (Py.lit "token=abc123 rest")
    = Py.lit "token=[EXPUNGED] rest"
  ∧ sanitize_output (Py.lit "ABC123") (Py.lit "ABC123 ABC123 ABC123")
    = Py.lit "[EXPUNGED] [EXPUNGED] ABC123"
  ∧ sanitize_ignoring_case (Py.lit "ABC123") (Py.lit "ABC123 ABC123 ABC123")
    = Py.lit "[EXPUNGED] [EXPUNGED] [EXPUNGED]".
Proof. repeat split; reflexivity. Qed.

(** ** The await helper *)

Lemma maybe_await_loop_resolve (range_ : list Z) (awaits : nat) (v : value) :
  snd (maybe_await_loop range_ awaits v) = resolve (length range_) v.
Proof.
  revert awaits v. induction range_ as [|i range_ IH]; intros awaits v; simpl.
  - done.
  - destruct v; simpl; first [done | apply IH].
Qed.

Lemma maybe_await_loop_count (range_ : list Z) (awaits : nat) (v : value) :
  (awaits ≤ fst (maybe_await_loop range_ awaits v)
   ∧ fst (maybe_await_loop range_ awaits v) ≤ awaits + length range_)%nat.
Proof.
  revert awaits v. induction range_ as [|i range_ IH]; intros awaits v; simpl.
  - lia.
  - destruct v; simpl; try lia.
    specialize (IH (Datatypes.S awaits) v). lia.
Qed.

(** C8: [maybe_await] performs at most two [await]s; a value that is not
    awaitable is returned unchanged without any; an awaitable is resolved
    once, and once more when what it resolved to is awaitable again; what
    the second [await] gives is returned as it is, awaitable or not. This
    is the bounded loop [resolve(value, maxSteps=2)]. *)
Theorem maybe_await_two_steps (v : value) :
  (fst (maybe_await_counted v) ≤ 2)%nat
  ∧ maybe_await v = resolve 2 v
  ∧ (isawaitable v = false → maybe_await_counted v = (0%nat, Returns v))
  ∧ (∀ v1 : value, v = VCoro v1 → isawaitable v1 = false →
       maybe_await_counted v = (1%nat, Returns v1))
  ∧ (∀ v2 : value, v = VCoro (VCoro v2) →
       maybe_await_counted v = (2%nat, Returns v2)).
Proof.
  split; [|split; [|split; [|split]]].
  - unfold maybe_await_counted.
    destruct (maybe_await_loop_count [0; 1] 0 v) as [_ H].
    exact H.
  - unfold maybe_await, maybe_await_counted.
    by rewrite maybe_await_loop_resolve.
  - by destruct v.
  - intros v1 -> H1. by destruct v1.
  - by intros v2 ->.
Qed.

(** An example of [maybe_await_two_steps]: a coroutine whose result is a
    coroutine whose result is again a coroutine is awaited twice, and the
    innermost coroutine is returned without being awaited. *)
Lemma maybe_await_three_deep :
  (fst (maybe_await_counted (VCoro (VCoro (VCoro (VInt 1))))) ≤ 2)%nat
  ∧ maybe_await (VCoro (VCoro (VCoro (VInt 1))))
    = Returns (VCoro (VInt 1)).
Proof.
  destruct (maybe_await_two_steps (VCoro (VCoro (VCoro (VInt 1)))))
    as (Hn & Hr & _).
  split; [exact Hn|]. rewrite Hr. reflexivity.
Defined.


(** ** Interactive delivery *)

(** The equations of the monad. *)
Lemma run_bind {A B : Type} (m : M A) (k : A → M B) (svc : service)
    (w : world) :
  (m ≫= k) svc w =
  match m svc w with
  | (Returns a, w') => k a svc w'
  | (Raises e, w') => (Raises e, w')
  end.
Proof. reflexivity. Qed.

Lemma run_ret {A : Type} (a : A) (svc : service) (w : world) :
  mret (M := M) a svc w = (Returns a, w).
Proof. reflexivity. Qed.

Lemma run_perform {A : Type} (a : action)
    (answer : service → list action → outcome A) (svc : service) (w : world) :
  perform a answer svc w =
  (answer svc (actions w), {| actions := actions w ++ [a]; cog := cog w |}).
Proof. reflexivity. Qed.

Lemma run_try {A B : Type} (body : M A) (classes : list string)
    (handler : exn → M B) (orelse : A → M B) (svc : service) (w : world) :
  try_except_else body classes handler orelse svc w =
  match body svc w with
  | (Returns a, w') => orelse a svc w'
  | (Raises e, w') =>
      if isinstance_any e classes then handler e svc w' else (Raises e, w')
  end.
Proof. reflexivity. Qed.

Lemma find_none_of {A : Type} (check : A → bool) (l : list A) :
  Forall (fun x => check x = false) l → List.find check l = None.
Proof. induction 1 as [|x l Hx _ IH]; simpl; [done|]. by rewrite Hx. Qed.

(** C6, amended: [send_interactive] with three pages, on a channel that
    accepts the first page and the prompt, when no message passing the
    [more] check arrives before the timeout: the first page and the prompt
    for the two remaining ones are sent, the wait times out, the deletion
    of the prompt is attempted and nothing else is done (the other two
    pages are never sent). The call returns the handle of the one page sent
    when the deletion succeeds or fails with an [HTTPException], the
    failure lines 111-112 suppress; a deletion that fails with anything
    else makes the call raise that exception. *)
Theorem send_interactive_timeout (svc : service) (w : world) (ctx : Context)
    (p1 p2 p3 : Py.str) (box_lang : option Py.str) (timeout : Z)
    (m1 query : message) :
  send_result svc (actions w) (render_page box_lang p1) = Returns m1 →
  send_result svc (actions w ++ [Send (render_page box_lang p1)])
    (remaining_prompt 2) = Returns query →
  Forall (fun m => more_predicate ctx m = false)
    (arriving svc (actions w ++ [Send (render_page box_lang p1);
                                 Send (remaining_prompt 2)])) →
  send_interactive ctx [p1; p2; p3] box_lang timeout svc w
  = (match delete_result svc
             (actions w ++ [Send (render_page box_lang p1);
                            Send (remaining_prompt 2); WaitFor timeout])
             query with
     | Returns _ => Returns [m1]
     | Raises e => if isinstance e HTTPException then Returns [m1]
                   else Raises e
     end,
     {| actions := actions w ++ [Send (render_page box_lang p1);
                                 Send (remaining_prompt 2);
                                 WaitFor timeout; Delete query];
        cog := cog w |}).
Proof.
  intros Hs1 Hs2 Hnone.
  unfold send_interactive.
  change (Z.of_nat (length [p1; p2; p3])) with 3.
  cbn [send_interactive_loop].
  rewrite run_bind. unfold send at 1. rewrite run_perform, Hs1.
  change (0 <? 3 - 1) with true. change (3 - 1) with 2. cbv iota.
  rewrite run_bind. unfold send at 1. rewrite run_perform. cbn [actions cog].
  rewrite Hs2, run_try. unfold wait_for. rewrite run_perform. cbn [actions cog].
  rewrite <- !app_assoc. cbn [app].
  rewrite (find_none_of _ _ Hnone).
  change (isinstance_any TimeoutError ["TimeoutError"%string]) with true.
  cbv iota. rewrite run_bind. unfold suppress. rewrite run_try.
  unfold delete_message. rewrite run_perform. cbn [actions cog].
  rewrite <- !app_assoc. cbn [app].
  destruct (delete_result svc _ query) as [[]|e] eqn:Hd.
  - reflexivity.
  - unfold isinstance_any. cbn [existsb]. rewrite orb_false_r.
    by destruct (isinstance e HTTPException).
Qed.

(** An example of [send_interactive_timeout]: three pages boxed as [py] on
    a channel where the bot may not delete messages and nobody answers. *)
Lemma send_interactive_timeout_nobody_answers :
  send_interactive owner_ctx [Py.lit "a"; Py.lit "b"; Py.lit "c"]
    (Some (Py.lit "py")) 15 no_delete_service
    {| actions := []; cog := new_Dev |}
  = (Returns [{| msg_id := 0; msg_author_id := 0; msg_channel_id := 7;
                 msg_content := Py.lit "```py" ++ [Py.nl] ++ Py.lit "a"
                                ++ [Py.nl] ++ Py.lit "```" |}],
     {| actions :=
          [Send (Py.lit "```py" ++ [Py.nl] ++ Py.lit "a" ++ [Py.nl]
                 ++ Py.lit "```");
           Send (Py.lit
             "There are still 2 messages remaining. Type `more` to continue.");
           WaitFor 15;
           Delete {| msg_id := 1; msg_author_id := 0; msg_channel_id := 7;
                     msg_content := Py.lit
             "There are still 2 messages remaining. Type `more` to continue." |}];
        cog := new_Dev |}).
Proof.
  etrans.
  - apply (send_interactive_timeout no_delete_service
             {| actions := []; cog := new_Dev |} owner_ctx
             (Py.lit "a") (Py.lit "b") (Py.lit "c") (Some (Py.lit "py")) 15).
    + reflexivity.
    + reflexivity.
    + constructor.
  - reflexivity.
Defined.

(** C6 as stated fails where the deletion of the prompt fails with
    something that is not an [HTTPException]: on a channel where the
    connection is lost at the deletion, the same call sends the page and
    the prompt, times out, attempts the deletion, and raises. *)
Lemma send_interactive_timeout_delete_raises :
  isinstance ConnectionError HTTPException = false
  ∧ send_interactive owner_ctx [Py.lit "a"; Py.lit "b"; Py.lit "c"]
      (Some (Py.lit "py")) 15 lost_on_delete_service
      {| actions := []; cog := new_Dev |}
    = (Raises ConnectionError,
       {| actions :=
            [Send (Py.lit "```py" ++ [Py.nl] ++ Py.lit "a" ++ [Py.nl]
                   ++ Py.lit "```");
             Send (Py.lit
               "There are still 2 messages remaining. Type `more` to continue.");
             WaitFor 15;
             Delete {| msg_id := 1; msg_author_id := 0; msg_channel_id := 7;
                       msg_content := Py.lit
               "There are still 2 messages remaining. Type `more` to continue." |}];
          cog := new_Dev |}).
Proof. split; reflexivity. Qed.


(** ** The execution environment *)






(** ** What the handlers leave alone *)

Section Frame.

Context {X : Type} (attr : Dev → X).

Lemma preserves_ret {A : Type} (a : A) : preserves attr (mret a : M A).
Proof. by intros svc w. Qed.

Lemma preserves_raise {A : Type} (e : exn) : preserves attr (@raise A e).
Proof. by intros svc w. Qed.

Lemma preserves_lift {A : Type} (o : outcome A) : preserves attr (lift o).
Proof. by intros svc w. Qed.

Lemma preserves_get_self : preserves attr get_self.
Proof. by intros svc w. Qed.

Lemma preserves_perform {A : Type} (a : action)
    (answer : service → list action → outcome A) :
  preserves attr (perform a answer).
Proof. by intros svc w. Qed.

Lemma preserves_set_self (f : Dev → Dev) :
  (∀ self : Dev, attr (f self) = attr self) → preserves attr (set_self f).
Proof. intros Hf svc w. simpl. apply Hf. Qed.

Lemma preserves_bind {A B : Type} (m : M A) (k : A → M B) :
  preserves attr m → (∀ a : A, preserves attr (k a)) →
  preserves attr (m ≫= k).
Proof.
  intros Hm Hk svc w. rewrite run_bind. specialize (Hm svc w).
  destruct (m svc w) as [[a|e] w']; simpl in *; [|done].
  by rewrite Hk.
Qed.

Lemma preserves_try {A B : Type} (body : M A) (classes : list string)
    (handler : exn → M B) (orelse : A → M B) :
  preserves attr body → (∀ e : exn, preserves attr (handler e)) →
  (∀ a : A, preserves attr (orelse a)) →
  preserves attr (try_except_else body classes handler orelse).
Proof.
  intros Hb Hh Ho svc w. rewrite run_try. specialize (Hb svc w).
  destruct (body svc w) as [[a|e] w']; simpl in *.
  - by rewrite Ho.
  - destruct (isinstance_any e classes); [by rewrite Hh|done].
Qed.

Lemma preserves_send (content : Py.str) : preserves attr (send content).
Proof. apply preserves_perform. Qed.

Lemma preserves_suppress (classes : list string) (body : M unit) :
  preserves attr body → preserves attr (suppress classes body).
Proof.
  intros Hb. apply preserves_try; [done| |]; intros; apply preserves_ret.
Qed.

Lemma preserves_send_interactive_loop (ctx : Context)
    (box_lang : option Py.str) (timeout total : Z) (pages : list Py.str) :
  ∀ (idx : Z) (ret : list message),
    preserves attr
      (send_interactive_loop ctx box_lang timeout total idx pages ret).
Proof.
  induction pages as [|page pages IH]; intros idx ret;
    cbn [send_interactive_loop].
  - apply preserves_ret.
  - apply preserves_bind; [apply preserves_send|]. intros msg.
    destruct (0 <? total - idx); [|apply IH].
    apply preserves_bind; [apply preserves_send|]. intros query.
    apply preserves_try.
    + apply preserves_perform.
    + intros e. apply preserves_bind; [|intros; apply preserves_ret].
      apply preserves_suppress, preserves_perform.
    + intros resp. apply preserves_bind; [|intros; apply IH].
      apply preserves_try; [apply preserves_perform| |].
      * intros e. apply preserves_suppress, preserves_perform.
      * intros a. apply preserves_ret.
Qed.

Lemma preserves_send_interactive (ctx : Context) (messages : list Py.str)
    (box_lang : option Py.str) (timeout : Z) :
  preserves attr (send_interactive ctx messages box_lang timeout).
Proof. apply preserves_send_interactive_loop. Qed.

Lemma preserves_show_syntax_error {A : Type} (ctx : Context) (e : exn)
    (a : A) :
  preserves attr
    (pages ← lift (get_syntax_error e);
     send_interactive ctx (yielded pages) (Some (Py.lit "py")) 15;;
     mret a).
Proof.
  apply preserves_bind; [apply preserves_lift|]. intros pages.
  apply preserves_bind; [apply preserves_send_interactive|].
  intros; apply preserves_ret.
Qed.

Lemma preserves_tick (ctx : Context) : preserves attr (tick ctx).
Proof.
  apply preserves_try.
  - destruct (negb _); [apply preserves_raise|apply preserves_perform].
  - intros. apply preserves_ret.
  - intros. apply preserves_ret.
Qed.

Lemma preserves_get_environment (ctx : Context) :
  preserves attr (get_environment ctx).
Proof.
  apply preserves_bind; [apply preserves_get_self|].
  intros. apply preserves_lift.
Qed.

Lemma preserves_choose_executor (py : engine) (cleaned : Py.str) :
  preserves attr (choose_executor py cleaned).
Proof.
  apply preserves_bind.
  - destruct (_ =? _); [|apply preserves_ret].
    destruct (compile_error _ _ _); [|apply preserves_ret].
    destruct (isinstance _ _); [apply preserves_ret|apply preserves_raise].
  - intros [|]; [apply preserves_ret|].
    destruct (compile_error _ _ _); [apply preserves_raise|apply preserves_ret].
Qed.

End Frame.

(** ** The last result *)

Lemma run_get_environment (ctx : Context) (svc : service) (w : world) :
  get_environment ctx svc w = (snd (get_environment_calls (cog w) ctx), w).
Proof. reflexivity. Qed.

Lemma run_lift {A : Type} (o : outcome A) (svc : service) (w : world) :
  lift o svc w = (o, w).
Proof. reflexivity. Qed.

Lemma run_set_self (f : Dev → Dev) (svc : service) (w : world) :
  set_self f svc w = (Returns tt, {| actions := actions w; cog := f (cog w) |}).
Proof. reflexivity. Qed.

(** [debug] stores whatever the evaluation returned. *)
Lemma debug_last_result (py : engine) (ctx : Context) (code : Py.str)
    (svc : service) (w : world) :
  _last_result (cog (snd (debug py ctx code svc w))) =
  match evaluated_by_debug py (cog w) ctx code with
  | Returns v => v
  | Raises _ => _last_result (cog w)
  end.
Proof.
  unfold debug, evaluated_by_debug.
  rewrite run_bind, run_get_environment.
  destruct (snd (get_environment_calls (cog w) ctx)) as [env|e]; [|done].
  rewrite run_try, run_lift.
  destruct (compile_eval_await py (cleanup_code code) env) as [v|e].
  - rewrite run_bind, run_set_self.
    rewrite (preserves_bind _last_result); [done|apply preserves_tick|].
    intros _. apply preserves_bind; [|intros; apply preserves_ret].
    apply preserves_send_interactive.
  - destruct (isinstance_any e _); [|done].
    destruct (isinstance e "SyntaxError").
    + by rewrite (preserves_show_syntax_error _last_result).
    + rewrite (preserves_bind _last_result); [done| |intros; apply preserves_ret].
      apply preserves_send_interactive.
Qed.

(** [_eval] stores what the function returned when that is not [None] and
    [tick] did not raise. *)
Lemma eval_last_result (py : engine) (ctx : Context) (body : Py.str)
    (svc : service) (w : world) :
  _last_result (cog (snd (_eval py ctx body svc w))) =
  match executed_by_eval py (cog w) ctx body with
  | Returns v =>
      if is_not_None v then
        match fst (tick ctx svc w) with
        | Returns _ => v
        | Raises _ => _last_result (cog w)
        end
      else _last_result (cog w)
  | Raises _ => _last_result (cog w)
  end.
Proof.
  unfold _eval, executed_by_eval.
  rewrite run_bind, run_get_environment.
  destruct (snd (get_environment_calls (cog w) ctx)) as [env|e]; [|done].
  rewrite run_try, run_lift.
  destruct (compile_exec py (eval_source (cleanup_code body)) env)
    as [env'|e].
  - destruct (env' !! "func"%string) as [func|]; [|done].
    rewrite run_bind.
    assert (Hrest : ∀ msg : Py.str,
              preserves _last_result
                (send_interactive ctx
                   (yielded (get_pages (sanitize_output (ctx_token ctx) msg)))
                   (Some (Py.lit "py")) 15 ≫= (fun _ => mret tt))).
    { intros msg. apply preserves_bind; [|intros; apply preserves_ret].
      apply preserves_send_interactive. }
    destruct (result (call_func py func env')) as [v|e].
    + rewrite run_bind. pose proof (preserves_tick _last_result ctx svc w) as Ht.
      destruct (tick ctx svc w) as [[b|e] w1]; simpl in Ht |- *.
      * rewrite run_bind.
        destruct (is_not_None v).
        -- rewrite run_bind, run_set_self. cbn beta iota.
           rewrite run_ret. cbn beta iota. by (etrans; [apply Hrest|]).
        -- rewrite run_ret. cbn beta iota. by (etrans; [apply Hrest|]).
      * by destruct (is_not_None v).
    + rewrite run_ret. cbn beta iota delta [is_not_None].
      rewrite run_bind, run_ret. cbn beta iota. by (etrans; [apply Hrest|]).
  - destruct (isinstance_any e _); [|done].
    by rewrite (preserves_show_syntax_error _last_result).
Qed.

(** [repl pause] and a pass of the session loop do not touch
    [self._last_result]. *)
Lemma pause_last_result (ctx : Context) (toggle : option bool) :
  preserves _last_result (pause ctx toggle).
Proof.
  apply preserves_bind; [apply preserves_get_self|]. intros self.
  destruct (sessions self !! ctx_channel_id ctx) as [running|].
  - apply preserves_bind; [by apply preserves_set_self|]. intros _.
    apply preserves_bind; [|intros; apply preserves_ret].
    destruct (match toggle with Some t => t | None => negb running end);
      apply preserves_send.
  - apply preserves_bind; [apply preserves_send|intros; apply preserves_ret].
Qed.

Lemma repl_body_last_result (py : engine) (ctx : Context)
    (env : gmap string value) (response : message) :
  preserves _last_result (repl_body py ctx env response).
Proof.
  apply preserves_bind; [apply preserves_get_self|]. intros self.
  destruct (sessions self !! ctx_channel_id ctx) as [[|]|];
    [|apply preserves_ret|apply preserves_raise].
  cbv zeta. destruct (is_quit _).
  - apply preserves_bind; [apply preserves_send|]. intros _.
    apply preserves_bind; [by apply preserves_set_self|].
    intros; apply preserves_ret.
  - apply preserves_try; [apply preserves_choose_executor| |].
    + intros e. apply preserves_show_syntax_error.
    + intros mode. destruct (evaluate_in_session _ _ _ _ _) as [x awaited].
      destruct (session_reply _ _ _) as [msg env'].
      apply preserves_bind; [|intros; apply preserves_ret].
      apply preserves_try; [apply preserves_send_interactive| |].
      * intros e. destruct (isinstance _ _); [apply preserves_ret|].
        apply preserves_bind; [apply preserves_send|intros; apply preserves_ret].
      * intros; apply preserves_ret.
Qed.

Lemma repl_loop_last_result (py : engine) (ctx : Context)
    (events : list event) :
  ∀ env : gmap string value,
    preserves _last_result (repl_loop py ctx env events).
Proof.
  induction events as [|[m|ctx' toggle] events IH]; intros env;
    cbn [repl_loop].
  - apply preserves_ret.
  - destruct (repl_predicate ctx m); [|apply IH].
    apply preserves_bind; [apply repl_body_last_result|].
    intros [env'|]; [apply IH|apply preserves_ret].
  - apply preserves_bind; [|intros; apply IH].
    intros svc w. apply pause_last_result.
Qed.

Lemma repl_last_result (py : engine) (ctx : Context) (events : list event) :
  preserves _last_result (repl py ctx events).
Proof.
  apply preserves_bind; [apply preserves_get_self|]. intros self.
  destruct (sessions self !! ctx_channel_id ctx) as [running|].
  - apply preserves_bind; [|intros; apply preserves_ret].
    destruct running; apply preserves_send.
  - apply preserves_bind.
    + apply preserves_bind; [apply preserves_get_environment|].
      intros; apply preserves_ret.
    + intros env. apply preserves_bind; [by apply preserves_set_self|].
      intros _. apply preserves_bind; [apply preserves_send|].
      intros _. apply repl_loop_last_result.
Qed.

(** [choose_executor] only compiles. *)
Lemma choose_executor_world (py : engine) (cleaned : Py.str) (svc : service)
    (w : world) :
  snd (choose_executor py cleaned svc w) = w.
Proof.
  unfold choose_executor. rewrite run_bind.
  destruct (Py.count_char cleaned Py.nl =? 0).
  - destruct (compile_error py cleaned mode_eval) as [e|].
    + destruct (isinstance e "SyntaxError"); [|done].
      rewrite run_ret. cbn beta iota.
      by destruct (compile_error py cleaned mode_exec).
    + done.
  - rewrite run_ret. cbn beta iota.
    by destruct (compile_error py cleaned mode_exec).
Qed.

(** A pass of the loop over a running session, for an input that is not a
    quit keyword and compiles: unless the delivery of the reply raises, the
    loop goes round again with the environment of [session_reply]. *)
Lemma repl_body_evaluates (py : engine) (ctx : Context)
    (env : gmap string value) (response : message) (svc : service)
    (w : world) (mode : compile_mode) :
  sessions (cog w) !! ctx_channel_id ctx = Some true →
  is_quit (cleanup_code (msg_content response)) = false →
  fst (choose_executor py (cleanup_code (msg_content response)) svc w)
  = Returns mode →
  fst (repl_body py ctx env response svc w)
  = Returns (Some (snd (session_reply py
       (fst (evaluate_in_session py (cleanup_code (msg_content response))
               mode env response))
       (snd (evaluate_in_session py (cleanup_code (msg_content response))
               mode env response)))))
  ∨ ∃ e : exn, fst (repl_body py ctx env response svc w) = Raises e.
Proof.
  intros Hrun Hquit Hmode. unfold repl_body.
  rewrite run_bind. cbn [get_self]. rewrite Hrun. cbv zeta. rewrite Hquit.
  rewrite run_try.
  pose proof (choose_executor_world py (cleanup_code (msg_content response))
                svc w) as Hw.
  destruct (choose_executor py _ svc w) as [o w1]. simpl in Hmode, Hw.
  subst o w1.
  destruct (evaluate_in_session _ _ _ _ _) as [x awaited]. cbn [fst snd].
  destruct (session_reply py x awaited) as [msg env']. cbn [snd].
  rewrite run_bind.
  destruct (try_except_else _ _ _ _ svc w) as [[[]|e] w2].
  - left. reflexivity.
  - right. by exists e.
Qed.

(** The same pass for an input that does not compile: unless formatting
    the error or delivering it raises, the loop goes round again with the
    environment it had. *)
Lemma repl_body_not_compiled (py : engine) (ctx : Context)
    (env : gmap string value) (response : message) (svc : service)
    (w : world) (e : exn) :
  sessions (cog w) !! ctx_channel_id ctx = Some true →
  is_quit (cleanup_code (msg_content response)) = false →
  fst (choose_executor py (cleanup_code (msg_content response)) svc w)
  = Raises e →
  fst (repl_body py ctx env response svc w) = Returns (Some env)
  ∨ ∃ e' : exn, fst (repl_body py ctx env response svc w) = Raises e'.
Proof.
  intros Hrun Hquit Hmode. unfold repl_body.
  rewrite run_bind. cbn [get_self]. rewrite Hrun. cbv zeta. rewrite Hquit.
  rewrite run_try.
  pose proof (choose_executor_world py (cleanup_code (msg_content response))
                svc w) as Hw.
  destruct (choose_executor py _ svc w) as [o w1]. simpl in Hmode, Hw.
  subst o w1.
  destruct (isinstance_any e _); [|right; by eexists].
  rewrite run_bind, run_lift.
  destruct (get_syntax_error e) as [pages|err]; [|right; by eexists].
  rewrite run_bind.
  destruct (send_interactive _ _ _ _ svc w) as [[ret|e'] w2].
  - left. by rewrite run_ret.
  - right. by eexists.
Qed.

(** What a pass of the loop does when it does not go round again with an
    environment: for a quit keyword in a running session it returns, or
    raises with the notice; without a session the lookup of line 353
    raises. *)
Lemma repl_body_no_environment (py : engine) (ctx : Context)
    (env env' : gmap string value) (response : message) (svc : service)
    (w : world) :
  sessions (cog w) !! ctx_channel_id ctx = None
  ∨ (sessions (cog w) !! ctx_channel_id ctx = Some true
     ∧ is_quit (cleanup_code (msg_content response)) = true) →
  fst (repl_body py ctx env response svc w) ≠ Returns (Some env').
Proof.
  unfold repl_body. rewrite run_bind. cbn [get_self].
  intros [->|[-> Hquit]]; [done|].
  cbv zeta. rewrite Hquit, run_bind.
  destruct (send _ svc w) as [[m|e] w1]; [|done].
  by rewrite run_bind, run_set_self, run_ret.
Qed.

(** ** The session loop *)

(** C2, amended: the pause check of line 353 comes before the quit check of
    line 358. For an input whose cleaned content is ["quit"], ["exit"] or
    ["exit()"]: while the session is paused the input is discarded, the
    session stays paused and the loop waits for the next message; while the
    session is running, and the channel accepts the ["Exiting."] notice,
    the session is removed and the loop ends. *)
Theorem quit_only_while_running (py : engine) (ctx : Context)
    (env : gmap string value) (response : message) (events : list event)
    (svc : service) (w : world) :
  repl_predicate ctx response = true →
  is_quit (cleanup_code (msg_content response)) = true →
  (sessions (cog w) !! ctx_channel_id ctx = Some false →
     repl_body py ctx env response svc w = (Returns (Some env), w)
     ∧ repl_loop py ctx env (Incoming response :: events) svc w
       = repl_loop py ctx env events svc w)
  ∧ (sessions (cog w) !! ctx_channel_id ctx = Some true →
     ∀ notice : message,
       send_result svc (actions w) (Py.lit "Exiting.") = Returns notice →
       repl_loop py ctx env (Incoming response :: events) svc w
       = (Returns Exited,
          {| actions := actions w ++ [Send (Py.lit "Exiting.")];
             cog := with_sessions
                      (delete (ctx_channel_id ctx) (sessions (cog w)))
                      (cog w) |})).
Proof.
  intros Hpred Hquit. split.
  - intros Hpaused.
    assert (Hbody : repl_body py ctx env response svc w
                    = (Returns (Some env), w)).
    { unfold repl_body. rewrite run_bind. cbn [get_self]. by rewrite Hpaused. }
    split; [done|].
    cbn [repl_loop]. rewrite Hpred, run_bind, Hbody. done.
  - intros Hrunning notice Hsend.
    cbn [repl_loop]. rewrite Hpred, run_bind.
    unfold repl_body. rewrite run_bind. cbn [get_self]. rewrite Hrunning.
    cbv zeta. rewrite Hquit.
    rewrite run_bind. unfold send. rewrite run_perform, Hsend.
    reflexivity.
Qed.

(** An example of [quit_only_while_running]: the owner sends [`quit`] to
    a paused and to a running session of channel 7. *)
Lemma quit_only_while_running_owner :
  (repl_loop (constant_engine (Returns VNone)) owner_ctx ∅
     [Incoming (owner_says (Py.lit "`quit`"))] quiet_service
     {| actions := [];
        cog := with_sessions {[ 7 := false ]} new_Dev |}
   = (Returns (Waiting ∅),
      {| actions := [];
         cog := with_sessions {[ 7 := false ]} new_Dev |}))
  ∧ (repl_loop (constant_engine (Returns VNone)) owner_ctx ∅
       [Incoming (owner_says (Py.lit "`quit`"))] quiet_service
       {| actions := [];
          cog := with_sessions {[ 7 := true ]} new_Dev |}
     = (Returns Exited,
        {| actions := [Send (Py.lit "Exiting.")];
           cog := with_sessions (delete 7 {[ 7 := true ]})
                    (with_sessions {[ 7 := true ]} new_Dev) |})).
Proof.
  split.
  - destruct (quit_only_while_running (constant_engine (Returns VNone))
                owner_ctx ∅ (owner_says (Py.lit "`quit`")) []
                quiet_service
                {| actions := [];
                   cog := with_sessions {[ 7 := false ]} new_Dev |})
      as [[_ Hpaused] _]; [reflexivity|reflexivity|reflexivity|].
    exact Hpaused.
  - destruct (quit_only_while_running (constant_engine (Returns VNone))
                owner_ctx ∅ (owner_says (Py.lit "`quit`")) []
                quiet_service
                {| actions := [];
                   cog := with_sessions {[ 7 := true ]} new_Dev |})
      as [_ Hrunning]; [reflexivity|reflexivity|].
    exact (Hrunning eq_refl _ eq_refl).
Defined.

(** C2 as stated fails: the owner opens a session in channel 7, pauses it
    and sends [`quit`]. The cleaned input is a quit keyword, yet the session
    is still there, paused, and the loop still waits. *)
Lemma quit_while_paused_is_discarded :
  is_quit (cleanup_code (Py.lit "`quit`")) = true
  ∧ sessions
      (cog (snd (repl (constant_engine (Returns VNone)) owner_ctx
                   [PauseCommand owner_ctx None;
                    Incoming (owner_says (Py.lit "`quit`"))]
                   quiet_service {| actions := []; cog := new_Dev |})))
    !! 7 = Some false
  ∧ ∃ env : gmap string value,
      fst (repl (constant_engine (Returns VNone)) owner_ctx
             [PauseCommand owner_ctx None;
              Incoming (owner_says (Py.lit "`quit`"))]
             quiet_service {| actions := []; cog := new_Dev |})
      = Returns (Waiting env).
Proof.
  split; [reflexivity|]. split; [reflexivity|].
  eexists. reflexivity.
Qed.


(** C7, amended: [debug] overwrites [self._last_result] with the result of
    every successful evaluation, [None] included, and leaves it alone when
    building the environment, the compilation or the evaluation raises.
    [_eval] overwrites it only with a result that is not [None] of a call
    that returned (and then always, unless [tick] raises); it leaves it
    alone when anything up to and including the call raises and when the
    call returns [None]. A pass of the session loop never writes
    [self._last_result], and whenever it goes round again, the session
    environment it goes on with is the one it had when the session is
    paused or the input does not compile, and otherwise what the evaluated
    code left, in which the loop binds ["_"] only to a result that is not
    [None] of an evaluation that returned. *)
Theorem last_result_overwrites (py : engine) (ctx : Context) (source : Py.str)
    (env : gmap string value) (response : message) (svc : service)
    (w : world) :
  _last_result (cog (snd (debug py ctx source svc w)))
  = match evaluated_by_debug py (cog w) ctx source with
    | Returns v => v
    | Raises _ => _last_result (cog w)
    end
  ∧ _last_result (cog (snd (_eval py ctx source svc w)))
    = match executed_by_eval py (cog w) ctx source with
      | Returns v =>
          if is_not_None v then
            match fst (tick ctx svc w) with
            | Returns _ => v
            | Raises _ => _last_result (cog w)
            end
          else _last_result (cog w)
      | Raises _ => _last_result (cog w)
      end
  ∧ _last_result (cog (snd (repl_body py ctx env response svc w)))
    = _last_result (cog w)
  ∧ (∀ env' : gmap string value,
       fst (repl_body py ctx env response svc w) = Returns (Some env') →
       env' =
       match sessions (cog w) !! ctx_channel_id ctx with
       | Some true =>
           match fst (choose_executor py
                        (cleanup_code (msg_content response)) svc w) with
           | Returns mode =>
               match evaluate_in_session py
                       (cleanup_code (msg_content response))
                       mode env response with
               | (x, Returns r) =>
                   if is_not_None r
                   then <["_"%string := r]> (globals_after x)
                   else globals_after x
               | (x, Raises _) => globals_after x
               end
           | Raises _ => env
           end
       | _ => env
       end).
Proof.
  split; [apply debug_last_result|].
  split; [apply eval_last_result|].
  split; [apply repl_body_last_result|].
  intros env' Hnext.
  destruct (sessions (cog w) !! ctx_channel_id ctx) as [[|]|] eqn:Hrun.
  - destruct (is_quit (cleanup_code (msg_content response))) eqn:Hquit.
    { by destruct (repl_body_no_environment py ctx env env' response svc w);
        [right|]. }
    destruct (fst (choose_executor py (cleanup_code (msg_content response))
                     svc w)) as [mode|e] eqn:Hmode.
    + destruct (repl_body_evaluates py ctx env response svc w mode
                  Hrun Hquit Hmode) as [H|[e H]];
        rewrite H in Hnext; [|discriminate].
      clear H. revert Hnext.
      generalize (evaluate_in_session py
                    (cleanup_code (msg_content response)) mode env response).
      intros [x [r|e]] [= <-]; unfold session_reply; cbn [fst snd].
      * by destruct (is_not_None r).
      * reflexivity.
    + destruct (repl_body_not_compiled py ctx env response svc w e
                  Hrun Hquit Hmode) as [H|[e' H]];
        rewrite H in Hnext; [|discriminate].
      by injection Hnext.
  - revert Hnext. unfold repl_body. rewrite run_bind. cbn [get_self].
    rewrite Hrun, run_ret. by intros [= <-].
  - by destruct (repl_body_no_environment py ctx env env' response svc w);
      [left|].
Qed.

(** An example of [last_result_overwrites]: with 5 as the last result,
    [_eval] of a body that returns 3 stores 3, and [_eval] of a body that
    raises leaves 5; and a session in which ["_"] is 5 goes on with that
    environment after an input that does not compile. *)
Lemma last_result_overwrites_three :
  _last_result
    (cog (snd (_eval (constant_engine (Returns (VInt 3))) owner_ctx
                 (Py.lit "return 3") quiet_service
                 {| actions := [];
                    cog := {| _last_result := VInt 5; sessions := ∅;
                              env_extensions := [] |} |})))
  = VInt 3
  ∧ _last_result
      (cog (snd (_eval (constant_engine (Raises ZeroDivisionError)) owner_ctx
                   (Py.lit "return 1/0") quiet_service
                   {| actions := [];
                      cog := {| _last_result := VInt 5; sessions := ∅;
                                env_extensions := [] |} |})))
    = VInt 5
  ∧ ∃ env' : gmap string value,
      fst (repl_body rejecting_engine owner_ctx {[ "_"%string := VInt 5 ]}
             (owner_says (Py.lit "`(1`")) quiet_service
             {| actions := [];
                cog := with_sessions {[ 7 := true ]} new_Dev |})
      = Returns (Some env')
      ∧ env' = {[ "_"%string := VInt 5 ]}.
Proof.
  split; [|split].
  - destruct (last_result_overwrites (constant_engine (Returns (VInt 3)))
                owner_ctx (Py.lit "return 3") ∅ (owner_says (Py.lit "`1`"))
                quiet_service
                {| actions := [];
                   cog := {| _last_result := VInt 5; sessions := ∅;
                             env_extensions := [] |} |})
      as (_ & Heval & _).
    rewrite Heval. reflexivity.
  - destruct (last_result_overwrites
                (constant_engine (Raises ZeroDivisionError))
                owner_ctx (Py.lit "return 1/0") ∅ (owner_says (Py.lit "`1`"))
                quiet_service
                {| actions := [];
                   cog := {| _last_result := VInt 5; sessions := ∅;
                             env_extensions := [] |} |})
      as (_ & Heval & _).
    rewrite Heval. reflexivity.
  - destruct (last_result_overwrites rejecting_engine owner_ctx []
                {[ "_"%string := VInt 5 ]} (owner_says (Py.lit "`(1`"))
                quiet_service
                {| actions := [];
                   cog := with_sessions {[ 7 := true ]} new_Dev |})
      as (_ & _ & _ & Hsession).
    eexists. split; [reflexivity|].
    etrans; [apply Hsession; reflexivity|]. reflexivity.
Defined.

(** C7 as stated fails for [debug]: with 5 as the last result, [debug] of
    code that evaluates to [None] leaves [None] as the last result. *)
Lemma debug_stores_None :
  evaluated_by_debug (constant_engine (Returns VNone))
    {| _last_result := VInt 5; sessions := ∅; env_extensions := [] |}
    owner_ctx (Py.lit "None")
  = Returns VNone
  ∧ _last_result
      (cog (snd (debug (constant_engine (Returns VNone)) owner_ctx
                   (Py.lit "None") quiet_service
                   {| actions := [];
                      cog := {| _last_result := VInt 5; sessions := ∅;
                                env_extensions := [] |} |})))
    = VNone.
Proof. split; reflexivity. Qed.

(** C10: the environment a new session starts with binds ["_"] to [None],
    whatever [self._last_result] holds, and that is the environment the
    loop of a newly opened session waits with; [repl], from the opening of
    the session through any events that reach its loop, leaves
    [self._last_result] as it was; and a pass of the loop over a running
    session whose evaluation returns a result other than [None] binds
    ["_"] to it in the session environment (unless delivering the reply
    raises, which ends the loop). *)
Theorem repl_result_stays_in_session (py : engine) (ctx : Context)
    (svc : service) (w : world) :
  (∀ (env : gmap string value) (w' : world),
     session_environment ctx svc w = (Returns env, w') →
     env !! "_"%string = Some VNone)
  ∧ (∀ (env : gmap string value) (w' : world),
       sessions (cog w) !! ctx_channel_id ctx = None →
       repl py ctx [] svc w = (Returns (Waiting env), w') →
       env !! "_"%string = Some VNone)
  ∧ (∀ events : list event,
       _last_result (cog (snd (repl py ctx events svc w)))
       = _last_result (cog w))
  ∧ (∀ (env : gmap string value) (events : list event),
       _last_result (cog (snd (repl_loop py ctx env events svc w)))
       = _last_result (cog w))
  ∧ (∀ (env : gmap string value) (response : message) (mode : compile_mode)
       (r : value),
       sessions (cog w) !! ctx_channel_id ctx = Some true →
       is_quit (cleanup_code (msg_content response)) = false →
       fst (choose_executor py (cleanup_code (msg_content response)) svc w)
       = Returns mode →
       snd (evaluate_in_session py (cleanup_code (msg_content response))
              mode env response) = Returns r →
       is_not_None r = true →
       fst (repl_body py ctx env response svc w)
       = Returns (Some (<["_"%string := r]>
           (globals_after
              (fst (evaluate_in_session py
                      (cleanup_code (msg_content response)) mode env
                      response)))))
       ∨ ∃ e : exn, fst (repl_body py ctx env response svc w) = Raises e).
Proof.
  assert (Hfresh : ∀ (env : gmap string value) (w' : world),
            session_environment ctx svc w = (Returns env, w') →
            env !! "_"%string = Some VNone).
  { intros env w'. unfold session_environment.
    rewrite run_bind, run_get_environment.
    destruct (snd (get_environment_calls (cog w) ctx)) as [env0|e]; [|done].
    rewrite run_ret. intros [= <- _]. apply lookup_insert_eq. }
  split; [exact Hfresh|]. split; [|split; [|split]].
  - intros env w' Habsent. unfold repl.
    rewrite run_bind. cbn [get_self]. rewrite Habsent, run_bind.
    destruct (session_environment ctx svc w) as [[env0|e] w1] eqn:Hse;
      [|discriminate].
    rewrite run_bind, run_set_self, run_bind. unfold send.
    rewrite run_perform.
    destruct (send_result svc _ _); [|discriminate].
    cbn [repl_loop]. rewrite run_ret. intros [= <- _].
    by apply (Hfresh env0 w1).
  - intros events. apply repl_last_result.
  - intros env events. apply repl_loop_last_result.
  - intros env response mode r Hrun Hquit Hmode Hr Hnn.
    destruct (repl_body_evaluates py ctx env response svc w mode
                Hrun Hquit Hmode) as [H|H]; [left|by right].
    rewrite H. unfold session_reply. by rewrite Hr, Hnn.
Qed.

(** An example of [repl_result_stays_in_session]: with 5 as the last result
    of the cog, the owner opens a session and evaluates [`3`]; the loop
    waits with ["_"] bound to 3, and the cog still holds 5. *)
Lemma repl_result_stays_in_session_three :
  _last_result
    (cog (snd (repl (constant_engine (Returns (VInt 3))) owner_ctx
                 [Incoming (owner_says (Py.lit "`3`"))] quiet_service
                 {| actions := [];
                    cog := {| _last_result := VInt 5; sessions := ∅;
                              env_extensions := [] |} |})))
  = VInt 5
  ∧ ∃ env : gmap string value,
      fst (repl (constant_engine (Returns (VInt 3))) owner_ctx
             [Incoming (owner_says (Py.lit "`3`"))] quiet_service
             {| actions := [];
                cog := {| _last_result := VInt 5; sessions := ∅;
                          env_extensions := [] |} |})
      = Returns (Waiting env)
      ∧ env !! "_"%string = Some (VInt 3).
Proof.
  destruct (repl_result_stays_in_session (constant_engine (Returns (VInt 3)))
              owner_ctx quiet_service
              {| actions := [];
                 cog := {| _last_result := VInt 5; sessions := ∅;
                           env_extensions := [] |} |})
    as (_ & _ & Hcog & _).
  split; [exact (Hcog [Incoming (owner_says (Py.lit "`3`"))])|].
  eexists. split; reflexivity.
Defined.

(** * Further properties *)

(** ** The pager, beyond the claims *)

(** X1: whatever the delimiters, the limit and the number of iterations
    run, every page [pagify] yields holds a character that is not white
    space: no page is empty or blank. *)
Theorem pagify_pages_not_blank (fuel : nat) (delims : list Py.str)
    (priority : bool) (limit : Z) (text : Py.str) :
  Forall (fun page => 0 < Py.len (Py.strip page)
                      ∧ forallb Py.isspace page = false)
    (yielded (pagify_loop fuel delims priority limit text)).
Proof.
  revert text. induction fuel as [|fuel IH]; intros text; simpl.
  - destruct (limit <? Py.len text); simpl; [constructor|].
    destruct (0 <? Py.len (Py.strip text)) eqn:E; constructor; [|constructor].
    split; [by apply Z.ltb_lt|].
    rewrite nonblank_forallb in E. by destruct (forallb Py.isspace text).
  - destruct (limit <? Py.len text).
    + destruct (closest_delim text delims priority limit) as [cd|];
        [|constructor].
      destruct (0 <? Py.len (Py.strip (Py.slice_to text cd))) eqn:E;
        [|apply IH].
      simpl. constructor; [|apply IH].
      split; [by apply Z.ltb_lt|].
      rewrite nonblank_forallb in E.
      by destruct (forallb Py.isspace (Py.slice_to text cd)).
    + simpl. destruct (0 <? Py.len (Py.strip text)) eqn:E;
        constructor; [|constructor].
      split; [by apply Z.ltb_lt|].
      rewrite nonblank_forallb in E. by destruct (forallb Py.isspace text).
Qed.

Lemma forallb_concat (P : Py.char → bool) (segments : list Py.str) :
  forallb P (concat segments) = forallb (forallb P) segments.
Proof.
  induction segments as [|seg segs IH]; simpl; [done|].
  by rewrite forallb_app, IH.
Qed.

Lemma filter_nonblank_nil (segments : list Py.str) :
  List.filter (fun seg => 0 <? Py.len (Py.strip seg)) segments = []
  ↔ forallb (forallb Py.isspace) segments = true.
Proof.
  induction segments as [|seg segs IH]; simpl; [done|].
  rewrite nonblank_forallb.
  destruct (forallb Py.isspace seg); simpl; [done|]. split; discriminate.
Qed.

(** X2: with an effective limit of at least 1 (and delimiters, or
    [priority]), [pagify] yields no page at all exactly when the text is
    white space throughout; the empty text is such a text. *)
Theorem pagify_nothing_iff_blank (T : Py.str) (D : list Py.str)
    (priority : bool) (S L : Z) :
  1 ≤ L - S → D ≠ [] ∨ priority = true →
  (yielded (pagify T D priority S L) = [] ↔ forallb Py.isspace T = true).
Proof.
  intros HL HD. unfold pagify.
  destruct (pagify_loop_segments D priority (L - S) HL HD
              (Datatypes.S (length T)) T) as (segs & <- & _ & ->); [lia|].
  simpl. by rewrite filter_nonblank_nil, forallb_concat.
Qed.

(** An example of [pagify_nothing_iff_blank]: three spaces under limit 2. *)
Lemma pagify_nothing_iff_blank_spaces :
  yielded (pagify (Py.lit "   ") [Py.lit " "] false 0 2) = []
  ↔ forallb Py.isspace (Py.lit "   ") = true.
Proof.
  apply (pagify_nothing_iff_blank (Py.lit "   ") [Py.lit " "] false 0 2).
  - lia.
  - left. discriminate.
Defined.

(** What [rfind] finds is an occurrence. *)
Lemma rfind_scan_found (s sub : Py.str) (start k : nat) :
  Py.rfind_scan s sub start k ≠ -1 →
  Py.startswith (drop (Z.to_nat (Py.rfind_scan s sub start k)) s) sub = true.
Proof.
  induction k as [|k IH]; simpl; [done|].
  destruct (Py.startswith (drop (start + k) s) sub) eqn:E; [|done].
  intros _. by rewrite Nat2Z.id.
Qed.

Lemma rfind_found (s sub : Py.str) (start end_ : Z) :
  Py.rfind s sub start end_ ≠ -1 →
  Py.startswith (drop (Z.to_nat (Py.rfind s sub start end_)) s) sub = true.
Proof.
  unfold Py.rfind. cbv zeta.
  destruct (_ - _ <? Py.len sub); [done|]. apply rfind_scan_found.
Qed.

Lemma next_positive_elem (xs : list Z) :
  Py.next_positive xs (-1) = -1 ∨ Py.next_positive xs (-1) ∈ xs.
Proof.
  induction xs as [|x xs IH]; simpl; [by left|].
  destruct (0 <? x); [right; left|].
  destruct IH as [IH|IH]; [by left|right; by right].
Qed.

Lemma fold_max_elem (xs : list Z) (x : Z) :
  fold_left Z.max xs x ∈ x :: xs.
Proof.
  revert x. induction xs as [|y ys IH]; intros x; simpl; [left|].
  specialize (IH (Z.max x y)).
  apply elem_of_cons in IH as [IH|IH].
  - rewrite IH. destruct (Z.max_spec x y) as [[_ ->]|[_ ->]];
      [right; left|left].
  - right. by right.
Qed.

(** X3: while the text is longer than a limit of at least 1, the split
    point of an iteration is the limit itself or an index from 1 up to the
    limit at which one of the delimiters occurs, so that the remainder
    starts with that delimiter. *)
Theorem closest_delim_at_delimiter (in_text : Py.str) (delims : list Py.str)
    (priority : bool) (limit cd : Z) :
  1 ≤ limit → limit < Py.len in_text →
  closest_delim in_text delims priority limit = Some cd →
  cd = limit
  ∨ (1 ≤ cd ∧ cd ≤ limit
     ∧ ∃ d : Py.str,
         d ∈ delims ∧ Py.startswith (Py.slice_from in_text cd) d = true).
Proof.
  intros Hl Hlen Hcd.
  destruct (closest_delim_range _ _ _ _ _ Hl Hcd) as [H1 H2].
  revert Hcd. unfold closest_delim.
  set (found := map (fun d => Py.rfind in_text d 1 limit) delims).
  assert (Hpick : ∀ c : Z, c ∈ found → c ≠ -1 →
            ∃ d : Py.str, d ∈ delims
              ∧ Py.startswith (drop (Z.to_nat c) in_text) d = true).
  { intros c [d [-> Hd]]%list_elem_of_fmap Hc.
    exists d. split; [done|]. by apply rfind_found. }
  assert (Hslice : Py.slice_from in_text cd = drop (Z.to_nat cd) in_text).
  { unfold Py.slice_from, Py.adjust_index.
    destruct (cd <? 0) eqn:E; [lia|]. f_equal. lia. }
  rewrite Hslice.
  destruct priority.
  - intros [= Hc].
    destruct (Py.next_positive found (-1) =? -1) eqn:E; [by left|].
    right. split; [done|]. split; [done|]. subst cd.
    destruct (next_positive_elem found) as [Hn|Hn]; [lia|].
    apply Hpick; [done|lia].
  - destruct found as [|x xs] eqn:Hf; simpl; [done|].
    intros [= Hc].
    destruct (fold_left Z.max xs x =? -1) eqn:E; [by left|].
    right. split; [done|]. split; [done|]. subst cd.
    apply Hpick; [apply fold_max_elem|lia].
Qed.

(** An example of [closest_delim_at_delimiter]. *)
Lemma closest_delim_at_delimiter_hello :
  5 = 8
  ∨ (1 ≤ 5 ∧ 5 ≤ 8
     ∧ ∃ d : Py.str,
         d ∈ [Py.lit " "]
         ∧ Py.startswith (Py.slice_from (Py.lit "hello world") 5) d = true).
Proof.
  apply (closest_delim_at_delimiter (Py.lit "hello world") [Py.lit " "]
           false 8 5).
  - lia.
  - vm_compute. reflexivity.
  - reflexivity.
Defined.

Lemma fold_max_base (xs : list Z) (x : Z) : x ≤ fold_left Z.max xs x.
Proof.
  revert x. induction xs as [|z zs IH]; intros x; simpl; [lia|].
  etrans; [|apply IH]. lia.
Qed.

Lemma fold_max_ge (xs : list Z) (x y : Z) :
  y ∈ x :: xs → y ≤ fold_left Z.max xs x.
Proof.
  revert x. induction xs as [|z zs IH]; intros x; simpl.
  - intros ->%list_elem_of_singleton. lia.
  - intros [->|[->|H]%elem_of_cons]%elem_of_cons.
    + etrans; [|apply fold_max_base]. lia.
    + etrans; [|apply fold_max_base]. lia.
    + apply IH. by right.
Qed.

Lemma next_positive_none (xs : list Z) :
  Py.next_positive xs (-1) = -1 → Forall (fun x => x ≤ 0) xs.
Proof.
  induction xs as [|x xs IH]; simpl; [constructor|].
  destruct (0 <? x) eqn:E; [lia|]. intros H. constructor; [lia|by apply IH].
Qed.

(** X4: on the same text and limit of at least 1, the split point chosen
    without [priority] (the rightmost match of any delimiter) is never to
    the left of the one chosen with [priority] (the rightmost match of the
    first delimiter that matches). *)
Theorem closest_delim_priority_not_later (in_text : Py.str)
    (delims : list Py.str) (limit first_wins rightmost : Z) :
  1 ≤ limit →
  closest_delim in_text delims true limit = Some first_wins →
  closest_delim in_text delims false limit = Some rightmost →
  first_wins ≤ rightmost.
Proof.
  intros Hl Hp Hm.
  destruct (closest_delim_range _ _ _ _ _ Hl Hm) as [_ Hm2].
  revert Hp Hm. unfold closest_delim.
  pose proof (found_split_ok in_text delims limit ltac:(lia)) as Hok.
  set (found := map (fun d => Py.rfind in_text d 1 limit) delims) in *.
  destruct found as [|x xs] eqn:Hf; cbn [Py.max_]; [intros _ [=]|].
  inversion Hok as [|? ? Hx Hxs]; subst.
  pose proof (fold_max_ok limit xs x Hx Hxs) as Hmax.
  pose proof (next_positive_ok limit (x :: xs) Hok) as Hnp.
  pose proof (next_positive_elem (x :: xs)) as Hel.
  pose proof (next_positive_none (x :: xs)) as Hnone.
  pose proof (fold_max_elem xs x) as Hin.
  pose proof (fold_max_ge xs x) as Hge.
  revert Hmax Hnp Hel Hnone Hin Hge.
  generalize (Py.next_positive (x :: xs) (-1)) (fold_left Z.max xs x).
  intros np mx Hmax Hnp Hel Hnone Hin Hge [= <-] [= <-].
  destruct (Z.eq_dec np (-1)) as [->|Hn].
  - specialize (Hnone eq_refl). rewrite Forall_forall in Hnone.
    apply Hnone in Hin. destruct Hmax as [->|Hmax]; [done|lia].
  - destruct Hel as [Hel|Hel]; [done|]. apply Hge in Hel.
    unfold split_ok in *.
    destruct (np =? -1) eqn:E1; [lia|].
    destruct (mx =? -1) eqn:E2; lia.
Qed.

(** An example of [closest_delim_priority_not_later]: with the delimiters
    line feed and space, ["a b\nc d e"] is cut at the line feed (3) under
    [priority] and at the last space before the limit (7) without. *)
Lemma closest_delim_priority_not_later_lines : 3 ≤ 7.
Proof.
  apply (closest_delim_priority_not_later
           (Py.lit "a b" ++ [Py.nl] ++ Py.lit "c d e")
           [[Py.nl]; Py.lit " "] 8 3 7).
  - lia.
  - reflexivity.
  - reflexivity.
Defined.

Lemma render_page_py_len (page : Py.str) :
  Py.len (render_page (Some (Py.lit "py")) page) = Py.len page + 10.
Proof.
  unfold render_page, Py.len. rewrite !length_app.
  change (length backticks3) with 3%nat.
  change (length (Py.lit "py")) with 2%nat.
  change (length [Py.nl]) with 1%nat. lia.
Qed.

(** X5: [get_pages] always returns, and each of its pages, boxed by
    [send_interactive] as a [py] code block, has at most 2000 characters. *)
Theorem get_pages_boxed_fit (msg : Py.str) :
  stopped (get_pages msg) = StopIteration
  ∧ Forall (fun page =>
              Py.len page ≤ 1990
              ∧ Py.len (render_page (Some (Py.lit "py")) page) ≤ 2000)
      (yielded (get_pages msg)).
Proof.
  unfold get_pages, pagify.
  destruct (pagify_loop_segments [[Py.nl]; Py.lit " "] true (2000 - 10)
              ltac:(lia) ltac:(by right) (Datatypes.S (length msg)) msg)
    as (segs & _ & Hall & ->); [lia|].
  split; [done|]. cbn [yielded]. apply Forall_filter_bool.
  eapply Forall_impl; [exact Hall|]. intros page Hp. cbv beta in Hp.
  rewrite render_page_py_len. lia.
Qed.

(** ** The sanitizer, beyond the claims *)

Lemma match_at_here (token rest : Py.str) :
  Re.match_at 0 token (token ++ rest) = true.
Proof.
  induction token as [|c token IH]; simpl; [done|].
  unfold Re.char_matches. simpl. by rewrite N.eqb_refl.
Qed.

Lemma sub_scan_skip (flags : Z) (pat repl : Py.str) (budget : nat)
    (matched rest : Py.str) :
  Re.sub_scan flags pat repl (length matched) budget (matched ++ rest)
  = Re.sub_scan flags pat repl 0 budget rest.
Proof. induction matched as [|c matched IH]; simpl; [done|exact IH]. Qed.

Lemma sub_scan_here (token repl rest : Py.str) (budget : nat) :
  token ≠ [] →
  Re.sub_scan 0 token repl 0 (S budget) (token ++ rest)
  = repl ++ Re.sub_scan 0 token repl 0 budget rest.
Proof.
  intros Ht. destruct token as [|c token]; [done|].
  pose proof (match_at_here (c :: token) rest) as Hm.
  cbn [app] in *. cbn [Re.sub_scan]. rewrite Hm. f_equal.
  apply sub_scan_skip.
Qed.

Lemma sub_scan_exhausted (flags : Z) (pat repl s : Py.str) :
  Re.sub_scan flags pat repl 0 0 s = s.
Proof. by destruct s. Qed.

(** X6: for every token that is not empty, once the token has been
    replaced twice at the front of the input, whatever follows is passed on
    as it is, further occurrences of the token included. *)
Theorem sanitize_output_stops_after_two (token rest : Py.str) :
  token ≠ [] →
  sanitize_output token (token ++ token ++ rest)
  = EXPUNGED ++ EXPUNGED ++ rest.
Proof.
  intros Ht. unfold sanitize_output, Re.sub_escaped.
  change (Re.I =? 0) with false. change (Z.to_nat Re.I) with 2%nat.
  cbv iota. rewrite !sub_scan_here by done.
  by rewrite sub_scan_exhausted.
Qed.

(** An example of [sanitize_output_stops_after_two]: the token three times
    in a row. *)
Lemma sanitize_output_stops_after_two_thrice :
  sanitize_output (Py.lit "tok") (Py.lit "tok" ++ Py.lit "tok" ++ Py.lit "tok")
  = EXPUNGED ++ EXPUNGED ++ Py.lit "tok".
Proof.
  apply (sanitize_output_stops_after_two (Py.lit "tok") (Py.lit "tok")).
  discriminate.
Defined.

Lemma sub_scan_no_match (flags : Z) (pat repl : Py.str) (budget : nat)
    (s : Py.str) :
  (∀ i : nat, Re.match_at flags pat (drop i s) = false) →
  Re.sub_scan flags pat repl 0 budget s = s.
Proof.
  induction s as [|c s IH]; intros Hno.
  - destruct budget; [done|]. cbn [Re.sub_scan].
    pose proof (Hno 0%nat) as H0. cbn [drop] in H0. by rewrite H0.
  - destruct budget; [done|]. cbn [Re.sub_scan].
    pose proof (Hno 0%nat) as H0. cbn [drop] in H0. rewrite H0.
    f_equal. apply IH. intros i. apply (Hno (S i)).
Qed.

(** X7: an input in which the token occurs nowhere, letter for letter, is
    returned unchanged. *)
Theorem sanitize_output_without_token (token input_ : Py.str) :
  (∀ i : nat, Re.match_at 0 token (drop i input_) = false) →
  sanitize_output token input_ = input_.
Proof. intros Hno. by apply sub_scan_no_match. Qed.

(** An example of [sanitize_output_without_token]: the token in another
    letter case is no occurrence. *)
Lemma sanitize_output_without_token_lower :
  sanitize_output (Py.lit "ABC") (Py.lit "abcd") = Py.lit "abcd".
Proof.
  apply (sanitize_output_without_token (Py.lit "ABC") (Py.lit "abcd")).
  intros i. do 5 (destruct i as [|i]; [reflexivity|]). reflexivity.
Defined.

(** ** [cleanup_code] *)

Lemma startswith_app (prefix rest : Py.str) :
  Py.startswith (prefix ++ rest) prefix = true.
Proof.
  induction prefix as [|c prefix IH]; simpl; [by destruct rest|].
  rewrite N.eqb_refl. exact IH.
Qed.

Lemma endswith_app (front suffix : Py.str) :
  Py.endswith (front ++ suffix) suffix = true.
Proof. unfold Py.endswith. rewrite rev_app_distr. apply startswith_app. Qed.

Lemma slice_to_drop_suffix (front suffix : Py.str) :
  suffix ≠ [] →
  Py.slice_to (front ++ suffix) (- Py.len suffix) = front.
Proof.
  intros Hs. unfold Py.slice_to, Py.adjust_index, Py.len.
  rewrite length_app.
  assert (0 < length suffix)%nat by (destruct suffix; [done|simpl; lia]).
  destruct (_ <? 0) eqn:E; [|lia].
  replace (Z.to_nat _) with (length front) by lia.
  by rewrite take_app_length.
Qed.

Lemma START_CODE_BLOCK_RE_sub_tagged (ws : Py.char) (rest : Py.str) :
  Py.isspace ws = true →
  START_CODE_BLOCK_RE_sub (Py.lit "```py" ++ ws :: rest) = ws :: rest
  ∧ START_CODE_BLOCK_RE_sub (Py.lit "```python" ++ ws :: rest) = ws :: rest.
Proof.
  intros Hws.
  assert (Hnot_t : (ws =? 116)%N = false).
  { destruct (ws =? 116)%N eqn:E; [|done].
    apply N.eqb_eq in E. subst ws. discriminate. }
  unfold START_CODE_BLOCK_RE_sub, lookahead_space, backticks3.
  change (Py.lit "```python") with [96; 96; 96; 112; 121; 116; 104; 111; 110]%N.
  change (Py.lit "```py") with [96; 96; 96; 112; 121]%N.
  cbn [app Py.startswith drop N.eqb Pos.eqb andb].
  rewrite Hnot_t, Hws. cbn [andb]. split; [done|].
  by destruct rest.
Qed.

(** X8: a code block fenced as [```py] or [```python], with white space
    after the language tag, is cleaned to what stands between the tag and
    the closing fence, that white space included. *)
Theorem cleanup_code_fenced (ws : Py.char) (body : Py.str) :
  Py.isspace ws = true →
  cleanup_code (Py.lit "```py" ++ ws :: body ++ Py.lit "```") = ws :: body
  ∧ cleanup_code (Py.lit "```python" ++ ws :: body ++ Py.lit "```")
    = ws :: body.
Proof.
  intros Hws.
  destruct (START_CODE_BLOCK_RE_sub_tagged ws (body ++ Py.lit "```") Hws)
    as [Hpy Hpython].
  assert (Hfence : ∀ tag : Py.str,
            Py.startswith (backticks3 ++ tag ++ ws :: body ++ backticks3)
              backticks3
            && Py.endswith (backticks3 ++ tag ++ ws :: body ++ backticks3)
                 backticks3 = true).
  { intros tag. rewrite startswith_app.
    replace (backticks3 ++ tag ++ ws :: body ++ backticks3)
      with ((backticks3 ++ tag ++ ws :: body) ++ backticks3)
      by (by rewrite <- !app_assoc).
    by rewrite endswith_app. }
  split; unfold cleanup_code.
  - change (Py.lit "```py" ++ ws :: body ++ Py.lit "```")
      with (backticks3 ++ Py.lit "py" ++ ws :: body ++ backticks3) at 1 2.
    rewrite Hfence, Hpy.
    apply (slice_to_drop_suffix (ws :: body) (Py.lit "```")). discriminate.
  - change (Py.lit "```python" ++ ws :: body ++ Py.lit "```")
      with (backticks3 ++ Py.lit "python" ++ ws :: body ++ backticks3) at 1 2.
    rewrite Hfence, Hpython.
    apply (slice_to_drop_suffix (ws :: body) (Py.lit "```")). discriminate.
Qed.

(** An example of [cleanup_code_fenced]: a block with a line feed after the
    tag. *)
Lemma cleanup_code_fenced_print :
  cleanup_code (Py.lit "```py" ++ Py.nl :: Py.lit "print(1)" ++ Py.lit "```")
  = Py.nl :: Py.lit "print(1)"
  ∧ cleanup_code
      (Py.lit "```python" ++ Py.nl :: Py.lit "print(1)" ++ Py.lit "```")
    = Py.nl :: Py.lit "print(1)".
Proof. apply (cleanup_code_fenced Py.nl (Py.lit "print(1)")). reflexivity. Defined.

Lemma lstrip_with_head (P : Py.char → bool) (s : Py.str) (c : Py.char) :
  head (Py.lstrip_with P s) = Some c → P c = false.
Proof.
  induction s as [|x s IH]; simpl; [done|].
  destruct (P x) eqn:E; [done|]. simpl. by intros [= <-].
Qed.

Lemma lstrip_with_suffix (P : Py.char → bool) (s : Py.str) :
  ∃ front : Py.str, s = front ++ Py.lstrip_with P s.
Proof.
  induction s as [|x s [front IH]]; simpl; [by exists []|].
  destruct (P x); [|by exists []].
  exists (x :: front). simpl. by rewrite <- IH.
Qed.

Lemma last_rev (s : Py.str) : last (rev s) = head s.
Proof. destruct s as [|c s]; simpl; [done|]. apply last_snoc. Qed.

Lemma head_rev (s : Py.str) : head (rev s) = last s.
Proof. by rewrite <- (rev_involutive s) at 2; rewrite last_rev. Qed.

(** What [strip] leaves neither starts nor ends with a stripped
    character. *)
Lemma strip_with_ends (P : Py.char → bool) (s : Py.str) (c : Py.char) :
  head (Py.strip_with P s) = Some c ∨ last (Py.strip_with P s) = Some c →
  P c = false.
Proof.
  unfold Py.strip_with, Py.rstrip_with.
  set (inner := Py.lstrip_with P s). rewrite head_rev, last_rev.
  intros [H|H]; [|by apply lstrip_with_head in H].
  destruct (lstrip_with_suffix P (rev inner)) as [front Hfront].
  destruct (Py.lstrip_with P (rev inner)) as [|x l] eqn:Hl; [done|].
  assert (Hlast : last (rev inner) = Some c).
  { rewrite Hfront, last_app. by rewrite H. }
  rewrite last_rev in Hlast. by apply lstrip_with_head in Hlast.
Qed.

(** X9: for content that is not a fenced block ([```] at both ends),
    what [cleanup_code] returns neither starts nor ends with a backtick, a
    space or a line feed. *)
Theorem cleanup_code_inline_ends (content : Py.str) (c : Py.char) :
  Py.startswith content backticks3 && Py.endswith content backticks3 = false →
  head (cleanup_code content) = Some c ∨ last (cleanup_code content) = Some c →
  c ≠ 96%N ∧ c ≠ 32%N ∧ c ≠ Py.nl.
Proof.
  intros Hfence. unfold cleanup_code. rewrite Hfence. unfold Py.strip_chars.
  intros H%strip_with_ends. cbn in H.
  repeat split; intros ->; discriminate.
Qed.

(** An example of [cleanup_code_inline_ends]: inline code between
    backticks, with a space and a line feed around it. *)
Lemma cleanup_code_inline_ends_quit :
  cleanup_code (Py.lit "` quit`" ++ [Py.nl]) = Py.lit "quit"
  ∧ 113%N ≠ 96%N ∧ 113%N ≠ 32%N ∧ 113%N ≠ Py.nl.
Proof.
  split; [reflexivity|].
  apply (cleanup_code_inline_ends (Py.lit "` quit`" ++ [Py.nl]) 113%N).
  - reflexivity.
  - left. reflexivity.
Defined.

(** ** [tick] *)

Lemma run_raise {A : Type} (e : exn) (svc : service) (w : world) :
  raise (A := A) e svc w = (Raises e, w).
Proof. reflexivity. Qed.

(** X10: [tick] answers [True] exactly when the bot may add reactions and
    adding the reaction succeeded; without the permission it answers
    [False] and does not ask the service for anything; and a reaction that
    fails with an [HTTPException] makes it answer [False], not raise. *)
Theorem tick_outcome (ctx : Context) (svc : service) (w : world) :
  (fst (tick ctx svc w) = Returns true
   ↔ ctx_add_reactions ctx = true
     ∧ add_reaction_result svc (actions w) = Returns tt)
  ∧ (ctx_add_reactions ctx = false → tick ctx svc w = (Returns false, w))
  ∧ (∀ e : exn,
       ctx_add_reactions ctx = true →
       add_reaction_result svc (actions w) = Raises e →
       isinstance e HTTPException = true →
       fst (tick ctx svc w) = Returns false).
Proof.
  unfold tick. rewrite run_try.
  destruct (ctx_add_reactions ctx); cbn [negb].
  - unfold add_reaction. rewrite run_perform.
    destruct (add_reaction_result svc (actions w)) as [[]|e] eqn:Hr.
    + split; [|split]; [|done|done]. rewrite run_ret. cbn [fst]. by split.
    + split; [|split]; [|done|].
      * destruct (isinstance_any e _); cbn [fst]; [rewrite run_ret|];
          (split; [done|intros [_ [=]]]).
      * intros e' _ [= <-] He. unfold isinstance_any. cbn [existsb].
        rewrite He, orb_true_r. by rewrite run_ret.
  - rewrite run_raise.
    change (isinstance_any RuntimeError ["RuntimeError"%string; HTTPException])
      with true. cbv iota. rewrite run_ret. cbn [fst].
    split; [|split]; [|done|done]. split; [done|intros [[=] _]].
Qed.

(** An example of [tick_outcome]: the reaction is refused. *)
Lemma tick_outcome_forbidden :
  fst (tick owner_ctx closed_service {| actions := []; cog := new_Dev |})
  = Returns false.
Proof.
  destruct (tick_outcome owner_ctx closed_service
              {| actions := []; cog := new_Dev |}) as (_ & _ & H).
  apply (H Forbidden); reflexivity.
Defined.

(** ** Interactive delivery, beyond the claims *)

Section Answered.

Variables (svc : service) (ctx : Context).

Hypothesis sends_arrive : ∀ (log : list action) (content : Py.str),
  ∃ m : message,
    send_result svc log content = Returns m ∧ msg_content m = content.

Hypothesis more_arrives : ∀ log : list action,
  ∃ m : message, List.find (more_predicate ctx) (arriving svc log) = Some m.

Hypothesis bulk_delete_fails_softly :
  ∀ (log : list action) (ms : list message) (e : exn),
    delete_messages_result svc log ms = Raises e →
    isinstance_any e [HTTPException; "AttributeError"%string] = true.

Hypothesis delete_fails_softly :
  ∀ (log : list action) (m : message) (e : exn),
    delete_result svc log m = Raises e → isinstance e HTTPException = true.

Lemma tidy_up_returns (query resp : message) (w : world) :
  ∃ w' : world,
    try_except_else (delete_messages [query; resp])
      [HTTPException; "AttributeError"%string]
      (fun _ => suppress [HTTPException] (delete_message query))
      mret svc w
    = (Returns tt, w').
Proof.
  rewrite run_try. unfold delete_messages. rewrite run_perform.
  destruct (delete_messages_result svc (actions w) [query; resp])
    as [[]|e] eqn:Hbulk.
  - eexists. reflexivity.
  - rewrite (bulk_delete_fails_softly _ _ _ Hbulk).
    unfold suppress. rewrite run_try. unfold delete_message.
    rewrite run_perform. cbn [actions cog].
    destruct (delete_result svc _ query) as [[]|e'] eqn:Hdel.
    + eexists. reflexivity.
    + unfold isinstance_any. cbn [existsb].
      rewrite (delete_fails_softly _ _ _ Hdel). eexists. reflexivity.
Qed.

Lemma send_interactive_loop_answered (box_lang : option Py.str)
    (timeout total : Z) (pages : list Py.str) :
  ∀ (idx : Z) (ret : list message) (w : world),
  ∃ ret' : list message,
    fst (send_interactive_loop ctx box_lang timeout total idx pages ret svc w)
    = Returns ret'
    ∧ map msg_content ret'
      = map msg_content ret ++ map (render_page box_lang) pages.
Proof.
  induction pages as [|page pages IH]; intros idx ret w;
    cbn [send_interactive_loop].
  - exists ret. rewrite run_ret. by rewrite app_nil_r.
  - rewrite run_bind. unfold send at 1. rewrite run_perform.
    destruct (sends_arrive (actions w) (render_page box_lang page))
      as (msg & -> & Hmsg).
    assert (Hret : map msg_content (ret ++ [msg]) ++
                     map (render_page box_lang) pages
                   = map msg_content ret ++
                     map (render_page box_lang) (page :: pages)).
    { rewrite map_app, <- app_assoc. simpl. by rewrite Hmsg. }
    destruct (0 <? total - idx).
    + rewrite run_bind. unfold send at 1. rewrite run_perform.
      cbn [actions cog].
      destruct (sends_arrive (actions w ++ [Send (render_page box_lang page)])
                  (remaining_prompt (total - idx))) as (query & -> & _).
      rewrite run_try. unfold wait_for. rewrite run_perform.
      cbn [actions cog].
      destruct (more_arrives
                  ((actions w ++ [Send (render_page box_lang page)]) ++
                   [Send (remaining_prompt (total - idx))]))
        as (resp & ->).
      rewrite run_bind.
      destruct (tidy_up_returns query resp
                  {| actions :=
                       ((actions w ++ [Send (render_page box_lang page)]) ++
                        [Send (remaining_prompt (total - idx))]) ++
                       [WaitFor timeout];
                     cog := cog w |}) as [w' ->].
      destruct (IH (idx + 1) (ret ++ [msg]) w') as (ret' & -> & Hc).
      exists ret'. by rewrite Hc.
    + destruct (IH (idx + 1) (ret ++ [msg])
                  {| actions := actions w ++ [Send (render_page box_lang page)];
                     cog := cog w |}) as (ret' & -> & Hc).
      exists ret'. by rewrite Hc.
Qed.

End Answered.

(** X11: on a channel that accepts every send and returns the message
    sent, where a message passing the [more] check arrives during every
    wait and deletions fail only in the ways lines 117 and 121 expect,
    [send_interactive] returns one handle per page, and the handles hold
    the pages as rendered, in the order given. *)
Theorem send_interactive_all_pages (svc : service) (ctx : Context)
    (messages : list Py.str) (box_lang : option Py.str) (timeout : Z)
    (w : world) :
  (∀ (log : list action) (content : Py.str),
     ∃ m : message,
       send_result svc log content = Returns m ∧ msg_content m = content) →
  (∀ log : list action,
     ∃ m : message,
       List.find (more_predicate ctx) (arriving svc log) = Some m) →
  (∀ (log : list action) (ms : list message) (e : exn),
     delete_messages_result svc log ms = Raises e →
     isinstance_any e [HTTPException; "AttributeError"%string] = true) →
  (∀ (log : list action) (m : message) (e : exn),
     delete_result svc log m = Raises e → isinstance e HTTPException = true) →
  ∃ ret : list message,
    fst (send_interactive ctx messages box_lang timeout svc w) = Returns ret
    ∧ map msg_content ret = map (render_page box_lang) messages.
Proof.
  intros Hsend Hmore Hbulk Hdel. unfold send_interactive.
  destruct (send_interactive_loop_answered svc ctx Hsend Hmore Hbulk Hdel
              box_lang timeout (Z.of_nat (length messages)) messages 1 [] w)
    as (ret & Hret & Hc).
  by exists ret.
Qed.

(** An example of [send_interactive_all_pages]: three pages, the owner
    answering [MORE] to both prompts, on a channel where the bot cannot
    delete the answers. *)
Lemma send_interactive_all_pages_three :
  ∃ ret : list message,
    fst (send_interactive owner_ctx [Py.lit "a"; Py.lit "b"; Py.lit "c"]
           None 15 answering_service {| actions := []; cog := new_Dev |})
    = Returns ret
    ∧ map msg_content ret
      = map (render_page None) [Py.lit "a"; Py.lit "b"; Py.lit "c"].
Proof.
  apply (send_interactive_all_pages answering_service owner_ctx
           [Py.lit "a"; Py.lit "b"; Py.lit "c"] None 15
           {| actions := []; cog := new_Dev |}).
  - intros log content. eexists. split; reflexivity.
  - intros log. eexists. reflexivity.
  - intros log ms e [= <-]. reflexivity.
  - intros log m e [= <-].
Defined.

(** ** The session registry *)

(** What [repl pause] leaves in [self.sessions], whatever the channel does
    with its announcement. *)
Lemma pause_sessions (ctx : Context) (toggle : option bool) (svc : service)
    (w : world) :
  sessions (cog (snd (pause ctx toggle svc w))) =
  match sessions (cog w) !! ctx_channel_id ctx with
  | None => sessions (cog w)
  | Some running =>
      <[ctx_channel_id ctx := match toggle with
                              | None => negb running
                              | Some t => t
                              end]> (sessions (cog w))
  end.
Proof.
  unfold pause. rewrite run_bind. cbn [get_self].
  destruct (sessions (cog w) !! ctx_channel_id ctx) as [running|].
  - rewrite run_bind, run_set_self.
    etrans; [apply (preserves_bind sessions)|done].
    + destruct (match toggle with Some t => t | None => negb running end);
        apply preserves_send.
    + intros; apply preserves_ret.
  - etrans; [apply (preserves_bind sessions)|done].
    + apply preserves_send.
    + intros; apply preserves_ret.
Qed.

(** X12: [repl pause] without an argument, given twice in the same
    channel, leaves [self.sessions] as it was: a running session runs
    again, a paused one is paused again, and where there is no session
    none appears. This holds whatever happens to the two announcements. *)
Theorem pause_twice_restores (ctx : Context) (svc svc' : service)
    (w : world) :
  sessions (cog (snd (pause ctx None svc'
                        (snd (pause ctx None svc w)))))
  = sessions (cog w).
Proof.
  rewrite !pause_sessions.
  destruct (sessions (cog w) !! ctx_channel_id ctx) as [running|] eqn:Hs.
  - rewrite lookup_insert_eq, insert_insert_eq, negb_involutive.
    by apply insert_id.
  - by rewrite Hs.
Qed.

(** X13: [repl pause] neither creates nor removes a session and touches no
    other channel's; with an argument it leaves an existing session in the
    state asked for, without one in the opposite of the state it was in. *)
Theorem pause_only_sets_state (ctx : Context) (toggle : option bool)
    (svc : service) (w : world) :
  dom (sessions (cog (snd (pause ctx toggle svc w))))
  = dom (sessions (cog w))
  ∧ (∀ channel : Z, channel ≠ ctx_channel_id ctx →
       sessions (cog (snd (pause ctx toggle svc w))) !! channel
       = sessions (cog w) !! channel)
  ∧ (∀ running : bool,
       sessions (cog w) !! ctx_channel_id ctx = Some running →
       sessions (cog (snd (pause ctx toggle svc w))) !! ctx_channel_id ctx
       = Some (match toggle with None => negb running | Some t => t end)).
Proof.
  rewrite pause_sessions.
  destruct (sessions (cog w) !! ctx_channel_id ctx) as [running|] eqn:Hs.
  - split; [|split].
    + apply dom_insert_lookup_L. by rewrite Hs.
    + intros channel Hne. by rewrite lookup_insert_ne.
    + intros ? [= <-]. by rewrite lookup_insert_eq.
  - split; [done|]. split; [done|]. intros ? [=].
Qed.

(** An example of [pause_only_sets_state]: pausing the running session of
    channel 7 beside a paused one in channel 8. *)
Lemma pause_only_sets_state_two_channels :
  sessions
    (cog (snd (pause owner_ctx None quiet_service
                 {| actions := [];
                    cog := with_sessions {[ 7 := true; 8 := false ]}
                             new_Dev |})))
  !! 7 = Some false
  ∧ sessions
      (cog (snd (pause owner_ctx None quiet_service
                   {| actions := [];
                      cog := with_sessions {[ 7 := true; 8 := false ]}
                               new_Dev |})))
    !! 8 = Some false.
Proof.
  destruct (pause_only_sets_state owner_ctx None quiet_service
              {| actions := [];
                 cog := with_sessions {[ 7 := true; 8 := false ]} new_Dev |})
    as (_ & Hother & Hmine).
  split.
  - apply (Hmine true). reflexivity.
  - rewrite (Hother 8); [reflexivity|discriminate].
Defined.

(** X14: [repl] in a channel that already has a session, running or
    paused, sends the one notice that says so and does nothing else: the
    cog is as it was, and no loop is entered, whatever events follow. *)
Theorem repl_reopen_changes_nothing (py : engine) (ctx : Context)
    (events : list event) (svc : service) (w : world) (running : bool) :
  sessions (cog w) !! ctx_channel_id ctx = Some running →
  snd (repl py ctx events svc w)
  = {| actions :=
         actions w ++
         [Send (if running
                then Py.lit
  "Already running a REPL session in this channel. Exit it with `quit`."
                else Py.lit "Already running a REPL session in this channel."
                     ++ Py.lit " Resume the REPL with `" ++ ctx_prefix ctx
                     ++ Py.lit "repl resume`.")];
       cog := cog w |}
  ∧ ∀ env : gmap string value,
      fst (repl py ctx events svc w) ≠ Returns (Waiting env).
Proof.
  intros Hs. unfold repl. rewrite run_bind. cbn [get_self]. rewrite Hs.
  rewrite run_bind. unfold send.
  destruct running; rewrite run_perform;
    destruct (send_result svc (actions w) _); split; done.
Qed.

(** An example of [repl_reopen_changes_nothing]: a paused session in
    channel 7, and a [quit] that never reaches a loop. *)
Lemma repl_reopen_changes_nothing_paused :
  snd (repl (constant_engine (Returns VNone)) owner_ctx
         [Incoming (owner_says (Py.lit "`quit`"))] quiet_service
         {| actions := []; cog := with_sessions {[ 7 := false ]} new_Dev |})
  = {| actions :=
         [Send (Py.lit
  "Already running a REPL session in this channel. Resume the REPL with `!repl resume`.")];
       cog := with_sessions {[ 7 := false ]} new_Dev |}.
Proof.
  destruct (repl_reopen_changes_nothing (constant_engine (Returns VNone))
              owner_ctx [Incoming (owner_says (Py.lit "`quit`"))]
              quiet_service
              {| actions := [];
                 cog := with_sessions {[ 7 := false ]} new_Dev |} false)
    as [H _]; [reflexivity|].
  exact H.
Defined.

(** X15: the session is registered (line 337) before the entry notice is
    sent (line 338). When the environment could be built and the channel
    refuses the notice, [repl] ends with that failure, no loop runs, and
    the channel is left with a session marked as running. *)
Theorem repl_notice_refused_leaves_session (py : engine) (ctx : Context)
    (events : list event) (svc : service) (w : world)
    (env : gmap string value) (e : exn) :
  sessions (cog w) !! ctx_channel_id ctx = None →
  snd (get_environment_calls (cog w) ctx) = Returns env →
  send_result svc (actions w)
    (Py.lit "Enter code to execute or evaluate. `exit()` or `quit` to exit."
     ++ Py.lit " `" ++ ctx_prefix ctx ++ Py.lit "repl pause` to pause.")
  = Raises e →
  fst (repl py ctx events svc w) = Raises e
  ∧ sessions (cog (snd (repl py ctx events svc w))) !! ctx_channel_id ctx
    = Some true.
Proof.
  intros Hs Henv Hsend. unfold repl. rewrite run_bind. cbn [get_self].
  rewrite Hs, run_bind. unfold session_environment.
  rewrite run_bind, run_get_environment, Henv, run_ret.
  rewrite run_bind, run_set_self, run_bind. unfold send.
  rewrite run_perform. cbn [actions cog]. rewrite Hsend.
  split; [done|]. cbn. apply lookup_insert_eq.
Qed.

(** An example of [repl_notice_refused_leaves_session]: a channel the bot
    may not write to. *)
Lemma repl_notice_refused_leaves_session_closed :
  fst (repl (constant_engine (Returns VNone)) owner_ctx [] closed_service
         {| actions := []; cog := new_Dev |})
  = Raises Forbidden
  ∧ sessions
      (cog (snd (repl (constant_engine (Returns VNone)) owner_ctx []
                   closed_service {| actions := []; cog := new_Dev |})))
    !! ctx_channel_id owner_ctx = Some true.
Proof.
  eapply (repl_notice_refused_leaves_session (constant_engine (Returns VNone))
            owner_ctx [] closed_service {| actions := []; cog := new_Dev |});
    reflexivity.
Defined.

(** X16: while its session is paused, the loop discards every message
    that reaches it: nothing is evaluated, nothing is sent, nothing
    changes, and the loop waits with the environment it had. *)
Theorem repl_loop_paused_discards (py : engine) (ctx : Context)
    (env : gmap string value) (msgs : list message) (svc : service)
    (w : world) :
  sessions (cog w) !! ctx_channel_id ctx = Some false →
  repl_loop py ctx env (map Incoming msgs) svc w = (Returns (Waiting env), w).
Proof.
  intros Hs. induction msgs as [|m msgs IH]; cbn [map repl_loop]; [done|].
  destruct (repl_predicate ctx m); [|exact IH].
  rewrite run_bind. unfold repl_body at 1. rewrite run_bind. cbn [get_self].
  rewrite Hs, run_ret. exact IH.
Qed.

(** An example of [repl_loop_paused_discards]. *)
Lemma repl_loop_paused_discards_two :
  repl_loop (constant_engine (Returns (VInt 1))) owner_ctx ∅
    (map Incoming [owner_says (Py.lit "`1`"); owner_says (Py.lit "`exit()`")])
    quiet_service
    {| actions := []; cog := with_sessions {[ 7 := false ]} new_Dev |}
  = (Returns (Waiting ∅),
     {| actions := []; cog := with_sessions {[ 7 := false ]} new_Dev |}).
Proof.
  apply (repl_loop_paused_discards (constant_engine (Returns (VInt 1)))
           owner_ctx ∅).
  reflexivity.
Defined.

(** X17: messages of another author, in another channel, or not starting
    with a backtick never reach the body of the loop: whatever the state
    of the session, nothing is evaluated, sent or changed. *)
Theorem repl_loop_ignores_other_messages (py : engine) (ctx : Context)
    (env : gmap string value) (msgs : list message) (svc : service)
    (w : world) :
  Forall (fun m => msg_author_id m ≠ ctx_author_id ctx
                   ∨ msg_channel_id m ≠ ctx_channel_id ctx
                   ∨ Py.startswith (msg_content m) (Py.lit "`") = false)
    msgs →
  repl_loop py ctx env (map Incoming msgs) svc w = (Returns (Waiting env), w).
Proof.
  induction 1 as [|m msgs Hm _ IH]; cbn [map repl_loop]; [done|].
  assert (repl_predicate ctx m = false) as ->; [|exact IH].
  unfold repl_predicate.
  destruct Hm as [Hm|[Hm|Hm]].
  - replace (ctx_author_id ctx =? msg_author_id m) with false by lia. done.
  - replace (ctx_channel_id ctx =? msg_channel_id m) with false by lia.
    by rewrite andb_false_r.
  - rewrite Hm. by rewrite andb_false_r.
Qed.

(** An example of [repl_loop_ignores_other_messages]: [quit] without a
    backtick, and code from another user. *)
Lemma repl_loop_ignores_other_messages_two :
  repl_loop (constant_engine (Returns (VInt 1))) owner_ctx ∅
    (map Incoming
       [owner_says (Py.lit "quit");
        {| msg_id := 5; msg_author_id := 43; msg_channel_id := 7;
           msg_content := Py.lit "`1`" |}])
    quiet_service
    {| actions := []; cog := with_sessions {[ 7 := true ]} new_Dev |}
  = (Returns (Waiting ∅),
     {| actions := []; cog := with_sessions {[ 7 := true ]} new_Dev |}).
Proof.
  apply (repl_loop_ignores_other_messages (constant_engine (Returns (VInt 1)))
           owner_ctx ∅).
  constructor; [right; right; reflexivity|].
  constructor; [left; discriminate|]. constructor.
Defined.

(** ** The handlers, beyond the claims *)

(** X18: a pass of the loop over input that is not a quit keyword leaves
    every attribute of the cog as it was and never ends the loop by
    returning: whatever the evaluated code raises, whatever fails to
    compile or to be delivered, the session stays registered. *)
Theorem repl_body_only_quit_ends (py : engine) (ctx : Context)
    (env : gmap string value) (response : message) (svc : service)
    (w : world) :
  is_quit (cleanup_code (msg_content response)) = false →
  cog (snd (repl_body py ctx env response svc w)) = cog w
  ∧ fst (repl_body py ctx env response svc w) ≠ Returns None.
Proof.
  intros Hquit. unfold repl_body. rewrite run_bind. cbn [get_self].
  destruct (sessions (cog w) !! ctx_channel_id ctx) as [[|]|]; [|done|done].
  cbv zeta. rewrite Hquit, run_try.
  pose proof (choose_executor_world py (cleanup_code (msg_content response))
                svc w) as Hw.
  destruct (choose_executor py _ svc w) as [[mode|e] w1]; cbn [snd] in Hw;
    subst w1.
  - destruct (evaluate_in_session _ _ _ _ _) as [x awaited].
    destruct (session_reply py x awaited) as [msg env'].
    rewrite run_bind.
    match goal with |- context [try_except_else ?b ?c ?h ?o svc w] =>
      pose proof (preserves_try (fun d : Dev => d) b c h o) as Hp;
      destruct (try_except_else b c h o svc w) as [[[]|e] w2] eqn:Hrun
    end.
    + rewrite run_ret. split; [|done]. cbn [snd].
      change w2 with (snd (Returns tt, w2)). rewrite <- Hrun. apply Hp.
      * apply preserves_send_interactive.
      * intros e. destruct (isinstance e "Forbidden"); [apply preserves_ret|].
        apply preserves_bind; [apply preserves_send|].
        intros; apply preserves_ret.
      * intros; apply preserves_ret.
    + split; [|done]. cbn [snd].
      change w2 with (snd (@Raises unit e, w2)). rewrite <- Hrun. apply Hp.
      * apply preserves_send_interactive.
      * intros e'. destruct (isinstance e' "Forbidden"); [apply preserves_ret|].
        apply preserves_bind; [apply preserves_send|].
        intros; apply preserves_ret.
      * intros; apply preserves_ret.
  - destruct (isinstance_any e _); [|done].
    split; [apply (preserves_show_syntax_error (fun d : Dev => d))|].
    rewrite run_bind, run_lift.
    destruct (get_syntax_error e) as [pages|err]; [|done].
    rewrite run_bind.
    destruct (send_interactive _ _ _ _ svc w) as [[ret|e'] w2];
      [rewrite run_ret|]; done.
Qed.

(** An example of [repl_body_only_quit_ends]: code that divides by
    zero. *)
Lemma repl_body_only_quit_ends_division :
  cog (snd (repl_body (constant_engine (Raises ZeroDivisionError)) owner_ctx
              ∅ (owner_says (Py.lit "`1/0`")) quiet_service
              {| actions := [];
                 cog := with_sessions {[ 7 := true ]} new_Dev |}))
  = with_sessions {[ 7 := true ]} new_Dev
  ∧ fst (repl_body (constant_engine (Raises ZeroDivisionError)) owner_ctx
           ∅ (owner_says (Py.lit "`1/0`")) quiet_service
           {| actions := [];
              cog := with_sessions {[ 7 := true ]} new_Dev |})
    ≠ Returns None.
Proof.
  apply (repl_body_only_quit_ends (constant_engine (Raises ZeroDivisionError))
           owner_ctx ∅ (owner_says (Py.lit "`1/0`")) quiet_service
           {| actions := []; cog := with_sessions {[ 7 := true ]} new_Dev |}).
  reflexivity.
Defined.

Section Frames.

Context {X : Type} (attr : Dev → X).

Lemma debug_preserves (py : engine) (ctx : Context) (code : Py.str) :
  (∀ (v : value) (self : Dev), attr (with_last_result v self) = attr self) →
  preserves attr (debug py ctx code).
Proof.
  intros Hattr. apply preserves_bind; [apply preserves_get_environment|].
  intros env. apply preserves_try; [apply preserves_lift| |].
  - intros e. destruct (isinstance e "SyntaxError");
      [apply preserves_show_syntax_error|].
    apply preserves_bind; [apply preserves_send_interactive|].
    intros; apply preserves_ret.
  - intros v. apply preserves_bind; [by apply preserves_set_self|].
    intros _. apply preserves_bind; [apply preserves_tick|].
    intros _. apply preserves_bind; [apply preserves_send_interactive|].
    intros; apply preserves_ret.
Qed.

Lemma eval_preserves (py : engine) (ctx : Context) (body : Py.str) :
  (∀ (v : value) (self : Dev), attr (with_last_result v self) = attr self) →
  preserves attr (_eval py ctx body).
Proof.
  intros Hattr. apply preserves_bind; [apply preserves_get_environment|].
  intros env. apply preserves_try; [apply preserves_lift| |].
  - intros e. apply preserves_show_syntax_error.
  - intros env'. destruct (env' !! "func"%string) as [func|];
      [|apply preserves_raise].
    apply preserves_bind.
    + destruct (result (call_func py func env')); [|apply preserves_ret].
      apply preserves_bind; [apply preserves_tick|].
      intros; apply preserves_ret.
    + intros [v out]. apply preserves_bind.
      * destruct (is_not_None v); [|apply preserves_ret].
        apply preserves_bind; [by apply preserves_set_self|].
        intros; apply preserves_ret.
      * intros msg. apply preserves_bind; [apply preserves_send_interactive|].
        intros; apply preserves_ret.
Qed.

Hypothesis attr_not_sessions :
  ∀ (s : gmap Z bool) (self : Dev), attr (with_sessions s self) = attr self.

Lemma pause_preserves (ctx : Context) (toggle : option bool) :
  preserves attr (pause ctx toggle).
Proof.
  apply preserves_bind; [apply preserves_get_self|]. intros self.
  destruct (sessions self !! ctx_channel_id ctx) as [running|].
  - apply preserves_bind; [apply preserves_set_self; intros; apply attr_not_sessions|].
    intros _. apply preserves_bind; [|intros; apply preserves_ret].
    destruct (match toggle with Some t => t | None => negb running end);
      apply preserves_send.
  - apply preserves_bind; [apply preserves_send|intros; apply preserves_ret].
Qed.

Lemma repl_body_preserves (py : engine) (ctx : Context)
    (env : gmap string value) (response : message) :
  preserves attr (repl_body py ctx env response).
Proof.
  apply preserves_bind; [apply preserves_get_self|]. intros self.
  destruct (sessions self !! ctx_channel_id ctx) as [[|]|];
    [|apply preserves_ret|apply preserves_raise].
  cbv zeta. destruct (is_quit _).
  - apply preserves_bind; [apply preserves_send|]. intros _.
    apply preserves_bind;
      [apply preserves_set_self; intros; apply attr_not_sessions|].
    intros; apply preserves_ret.
  - apply preserves_try; [apply preserves_choose_executor| |].
    + intros e. apply preserves_show_syntax_error.
    + intros mode. destruct (evaluate_in_session _ _ _ _ _) as [x awaited].
      destruct (session_reply _ _ _) as [msg env'].
      apply preserves_bind; [|intros; apply preserves_ret].
      apply preserves_try; [apply preserves_send_interactive| |].
      * intros e. destruct (isinstance _ _); [apply preserves_ret|].
        apply preserves_bind; [apply preserves_send|intros; apply preserves_ret].
      * intros; apply preserves_ret.
Qed.

Lemma repl_loop_preserves (py : engine) (ctx : Context)
    (events : list event) :
  ∀ env : gmap string value, preserves attr (repl_loop py ctx env events).
Proof.
  induction events as [|[m|ctx' toggle] events IH]; intros env;
    cbn [repl_loop].
  - apply preserves_ret.
  - destruct (repl_predicate ctx m); [|apply IH].
    apply preserves_bind; [apply repl_body_preserves|].
    intros [env'|]; [apply IH|apply preserves_ret].
  - apply preserves_bind; [|intros; apply IH].
    intros svc w. apply pause_preserves.
Qed.

Lemma repl_preserves (py : engine) (ctx : Context) (events : list event) :
  preserves attr (repl py ctx events).
Proof.
  apply preserves_bind; [apply preserves_get_self|]. intros self.
  destruct (sessions self !! ctx_channel_id ctx) as [running|].
  - apply preserves_bind; [|intros; apply preserves_ret].
    destruct running; apply preserves_send.
  - apply preserves_bind.
    + apply preserves_bind; [apply preserves_get_environment|].
      intros; apply preserves_ret.
    + intros env. apply preserves_bind;
        [apply preserves_set_self; intros; apply attr_not_sessions|].
      intros _. apply preserves_bind; [apply preserves_send|].
      intros _. apply repl_loop_preserves.
Qed.

End Frames.

(** X19: no command changes the registered environment extensions, and
    [debug] and [_eval] change no session: after [debug], [_eval], [repl
    pause] and [repl] (with any events reaching its loop),
    [self.env_extensions] is what it was, and after [debug] and [_eval] so
    is [self.sessions]. *)
Theorem commands_keep_extensions_and_sessions (py : engine) (ctx : Context)
    (source : Py.str) (toggle : option bool) (events : list event)
    (svc : service) (w : world) :
  env_extensions (cog (snd (debug py ctx source svc w)))
  = env_extensions (cog w)
  ∧ env_extensions (cog (snd (_eval py ctx source svc w)))
    = env_extensions (cog w)
  ∧ env_extensions (cog (snd (pause ctx toggle svc w)))
    = env_extensions (cog w)
  ∧ env_extensions (cog (snd (repl py ctx events svc w)))
    = env_extensions (cog w)
  ∧ sessions (cog (snd (debug py ctx source svc w))) = sessions (cog w)
  ∧ sessions (cog (snd (_eval py ctx source svc w))) = sessions (cog w).
Proof.
  repeat split.
  - by apply (debug_preserves env_extensions).
  - by apply (eval_preserves env_extensions).
  - by apply (pause_preserves env_extensions).
  - by apply (repl_preserves env_extensions).
  - by apply (debug_preserves sessions).
  - by apply (eval_preserves sessions).
Qed.

(** X20: the session loop evaluates its input as an expression exactly
    when the input has no line feed and compiles as an expression; input
    with a line feed is compiled as statements without the expression
    compiler being asked. *)
Theorem choose_executor_eval_iff (py : engine) (cleaned : Py.str)
    (svc : service) (w : world) :
  (fst (choose_executor py cleaned svc w) = Returns mode_eval
   ↔ Py.count_char cleaned Py.nl = 0
     ∧ compile_error py cleaned mode_eval = None)
  ∧ (Py.count_char cleaned Py.nl ≠ 0 →
     fst (choose_executor py cleaned svc w)
     = match compile_error py cleaned mode_exec with
       | None => Returns mode_exec
       | Some e => Raises e
       end).
Proof.
  unfold choose_executor. rewrite run_bind.
  destruct (Py.count_char cleaned Py.nl =? 0) eqn:Hc.
  - apply Z.eqb_eq in Hc. split; [|by intros []].
    destruct (compile_error py cleaned mode_eval) as [e|].
    + destruct (isinstance e "SyntaxError").
      * rewrite run_ret. cbn beta iota.
        destruct (compile_error py cleaned mode_exec);
          (split; [done|intros [_ [=]]]).
      * rewrite run_raise. cbn beta iota. split; [done|intros [_ [=]]].
    + rewrite run_ret. cbn. done.
  - apply Z.eqb_neq in Hc. rewrite run_ret. cbn beta iota. split.
    + destruct (compile_error py cleaned mode_exec);
        (split; [done|intros [? _]; done]).
    + intros _. by destruct (compile_error py cleaned mode_exec).
Qed.

(** ** Replies *)






Lemma sanitize_output_nothing (token : Py.str) :
  token ≠ [] → sanitize_output token [] = [].
Proof. intros Ht. by destruct token. Qed.

(** X22: in a running session, input that compiles, prints nothing and
    evaluates to [None] (an assignment, say) gets no reply at all: the
    pass performs no action, changes nothing in the cog, and the loop goes
    on with the globals the code left. The bot's token is taken not to be
    the empty string. *)
Theorem repl_body_silent (py : engine) (ctx : Context)
    (env : gmap string value) (response : message) (svc : service)
    (w : world) (mode : compile_mode) (x : execution) :
  sessions (cog w) !! ctx_channel_id ctx = Some true →
  is_quit (cleanup_code (msg_content response)) = false →
  fst (choose_executor py (cleanup_code (msg_content response)) svc w)
  = Returns mode →
  evaluate_in_session py (cleanup_code (msg_content response)) mode env
    response = (x, Returns VNone) →
  printed x = [] →
  ctx_token ctx ≠ [] →
  repl_body py ctx env response svc w
  = (Returns (Some (globals_after x)), w).
Proof.
  intros Hrun Hquit Hmode Heval Hout Htoken. unfold repl_body.
  rewrite run_bind. cbn [get_self]. rewrite Hrun. cbv zeta.
  rewrite Hquit, run_try.
  pose proof (choose_executor_world py (cleanup_code (msg_content response))
                svc w) as Hw.
  destruct (choose_executor py _ svc w) as [o w1]. cbn [fst snd] in *.
  subst o w1. rewrite Heval. unfold session_reply. cbn [is_not_None].
  rewrite Hout, sanitize_output_nothing by done.
  reflexivity.
Qed.

(** An example of [repl_body_silent]: the owner sends [`x = 1`]. *)
Lemma repl_body_silent_assignment :
  repl_body (constant_engine (Returns VNone)) owner_ctx ∅
    (owner_says (Py.lit "`x = 1`")) quiet_service
    {| actions := []; cog := with_sessions {[ 7 := true ]} new_Dev |}
  = (Returns (Some (<["message"%string :=
                       VMsg (owner_says (Py.lit "`x = 1`"))]> ∅)),
     {| actions := []; cog := with_sessions {[ 7 := true ]} new_Dev |}).
Proof.
  change (<["message"%string := VMsg (owner_says (Py.lit "`x = 1`"))]> ∅)
    with (globals_after
            {| globals_after :=
                 <["message"%string :=
                     VMsg (owner_says (Py.lit "`x = 1`"))]> ∅;
               printed := []; result := Returns VNone |}).
  apply (repl_body_silent (constant_engine (Returns VNone)) owner_ctx ∅
           (owner_says (Py.lit "`x = 1`")) quiet_service
           {| actions := []; cog := with_sessions {[ 7 := true ]} new_Dev |}
           mode_eval
           {| globals_after :=
                <["message"%string :=
                    VMsg (owner_says (Py.lit "`x = 1`"))]> ∅;
              printed := []; result := Returns VNone |});
    try reflexivity.
  discriminate.
Defined.

(** ** The source [_eval] compiles *)

Lemma splitlines_keepends_concat (n : nat) :
  ∀ (s line : Py.str), (length s ≤ n)%nat →
    concat (splitlines_keepends line s) = rev line ++ s.
Proof.
  induction n as [|n IH]; intros s line Hn.
  - destruct s; [|simpl in Hn; lia]. destruct line; simpl; [done|].
    by rewrite !app_nil_r.
  - destruct s as [|c s']; cbn [splitlines_keepends].
    + destruct line; simpl; [done|]. by rewrite !app_nil_r.
    + simpl in Hn. destruct (is_line_boundary c).
      * destruct s' as [|c' s''].
        -- simpl. by rewrite app_nil_r.
        -- simpl in Hn. destruct ((c =? 13)%N && (c' =? 10)%N).
           ++ cbn [concat]. rewrite IH by lia. simpl.
              by rewrite <- !app_assoc.
           ++ cbn [concat]. rewrite IH by (simpl; lia). simpl.
              by rewrite <- !app_assoc.
      * rewrite IH by lia. simpl. by rewrite <- app_assoc.
Qed.

Lemma visible_indented (prefix : Py.str) (lines : list Py.str) :
  visible prefix = [] →
  visible (concat (map (fun line => match Py.strip line with
                                    | [] => line
                                    | _ => prefix ++ line
                                    end) lines))
  = visible (concat lines).
Proof.
  intros Hp. induction lines as [|line lines IH]; simpl; [done|].
  rewrite !visible_app, IH. destruct (Py.strip line); [done|].
  by rewrite visible_app, Hp.
Qed.

(** X23: the source that [_eval] compiles holds, apart from white space,
    exactly the characters of [async def func():] followed by those of the
    body, in order: indenting adds and removes nothing but white space. *)
Theorem eval_source_keeps_code (body : Py.str) :
  visible (eval_source body)
  = visible (Py.lit "async def func():") ++ visible body.
Proof.
  unfold eval_source, textwrap_indent.
  rewrite !visible_app, visible_indented by reflexivity.
  by rewrite (splitlines_keepends_concat (length body)).
Qed.

(** ** [mock] and [mock_msg] *)

(** X24: [mock_msg] asks for help instead of dispatching exactly when the
    content is empty and the invoking message carries no embed, attachment
    or sticker; what it dispatches is therefore never an empty message,
    and it is the invoking message with the author and the content
    replaced. [mock] dispatches what [mock_msg] dispatches for the prefix
    followed by the command, when that is not empty. *)
Theorem mock_msg_never_empty (msg : full_message) (user : Z)
    (content prefix command : Py.str) :
  (mock_msg msg user content = SendHelp
   ↔ content = [] ∧ fm_embeds msg = [] ∧ fm_attachments msg = []
     ∧ fm_stickers msg = [])
  ∧ (∀ sent : full_message,
       mock_msg msg user content = Dispatch sent →
       sent = replayed msg user content
       ∧ (msg_content (fm_message sent) ≠ [] ∨ fm_embeds sent ≠ []
          ∨ fm_attachments sent ≠ [] ∨ fm_stickers sent ≠ []))
  ∧ (prefix ++ command ≠ [] →
     mock msg prefix user command = mock_msg msg user (prefix ++ command)).
Proof.
  unfold mock_msg, mock. split; [|split].
  - destruct content, (fm_embeds msg), (fm_attachments msg),
      (fm_stickers msg); simpl; split; try done; intros (? & ? & ? & ?); done.
  - intros sent.
    destruct content, (fm_embeds msg) eqn:He, (fm_attachments msg) eqn:Ha,
      (fm_stickers msg) eqn:Hs; simpl; intros [= <-]; (split; [done|]);
      simpl; rewrite ?He, ?Ha, ?Hs; auto.
  - intros Hne. destruct (prefix ++ command); [done|]. reflexivity.
Qed.

(** ** The acknowledging reaction *)

Section Performs.

Context (allowed : action → Prop).

Lemma performs_nothing {A : Type} (m : M A) :
  (∀ (svc : service) (w : world), snd (m svc w) = w) →
  performs_only allowed m.
Proof.
  intros Hm svc w. exists []. rewrite Hm, app_nil_r. by split.
Qed.

Lemma performs_only_perform {A : Type} (a : action)
    (answer : service → list action → outcome A) :
  allowed a → performs_only allowed (perform a answer).
Proof.
  intros Ha svc w. exists [a]. rewrite run_perform. split; [done|].
  by constructor.
Qed.

Lemma performs_only_bind {A B : Type} (m : M A) (k : A → M B) :
  performs_only allowed m → (∀ a : A, performs_only allowed (k a)) →
  performs_only allowed (m ≫= k).
Proof.
  intros Hm Hk svc w. rewrite run_bind.
  destruct (Hm svc w) as (l1 & H1 & Hl1).
  destruct (m svc w) as [[a|e] w1]; cbn [snd] in *.
  - destruct (Hk a svc w1) as (l2 & H2 & Hl2).
    exists (l1 ++ l2). rewrite H2, H1, app_assoc. split; [done|].
    by apply Forall_app.
  - by exists l1.
Qed.

Lemma performs_only_try {A B : Type} (body : M A) (classes : list string)
    (handler : exn → M B) (orelse : A → M B) :
  performs_only allowed body →
  (∀ e : exn, performs_only allowed (handler e)) →
  (∀ a : A, performs_only allowed (orelse a)) →
  performs_only allowed (try_except_else body classes handler orelse).
Proof.
  intros Hb Hh Ho svc w. rewrite run_try.
  destruct (Hb svc w) as (l1 & H1 & Hl1).
  destruct (body svc w) as [[a|e] w1]; cbn [snd] in *.
  - destruct (Ho a svc w1) as (l2 & H2 & Hl2).
    exists (l1 ++ l2). rewrite H2, H1, app_assoc. split; [done|].
    by apply Forall_app.
  - destruct (isinstance_any e classes); [|by exists l1].
    destruct (Hh e svc w1) as (l2 & H2 & Hl2).
    exists (l1 ++ l2). rewrite H2, H1, app_assoc. split; [done|].
    by apply Forall_app.
Qed.

Lemma performs_only_ret {A : Type} (a : A) :
  performs_only allowed (mret a : M A).
Proof. by apply performs_nothing. Qed.

End Performs.

Lemma send_interactive_loop_no_reaction (ctx : Context)
    (box_lang : option Py.str) (timeout total : Z) (pages : list Py.str) :
  ∀ (idx : Z) (ret : list message),
    performs_only no_reaction
      (send_interactive_loop ctx box_lang timeout total idx pages ret).
Proof.
  induction pages as [|page pages IH]; intros idx ret;
    cbn [send_interactive_loop].
  - apply performs_only_ret.
  - apply performs_only_bind; [by apply performs_only_perform|]. intros msg.
    destruct (0 <? total - idx); [|apply IH].
    apply performs_only_bind; [by apply performs_only_perform|].
    intros query. apply performs_only_try.
    + by apply performs_only_perform.
    + intros e. apply performs_only_bind; [|intros; apply performs_only_ret].
      apply performs_only_try; [by apply performs_only_perform| |];
        intros; apply performs_only_ret.
    + intros resp. apply performs_only_bind; [|intros; apply IH].
      apply performs_only_try; [by apply performs_only_perform| |].
      * intros e. apply performs_only_try;
          [by apply performs_only_perform| |];
          intros; apply performs_only_ret.
      * intros; apply performs_only_ret.
Qed.

Lemma reply_no_reaction (ctx : Context) (pages : list Py.str) :
  performs_only no_reaction
    (send_interactive ctx pages (Some (Py.lit "py")) 15 ≫=
       (fun _ => mret tt)).
Proof.
  apply performs_only_bind; [|intros; apply performs_only_ret].
  apply send_interactive_loop_no_reaction.
Qed.

Lemma syntax_error_reply_no_reaction (ctx : Context) (e : exn) :
  performs_only no_reaction
    (pages ← lift (get_syntax_error e);
     send_interactive ctx (yielded pages) (Some (Py.lit "py")) 15;;
     mret tt).
Proof.
  apply performs_only_bind; [by apply performs_nothing|].
  intros pages. apply reply_no_reaction.
Qed.

(** X25: the check mark is for success only. When the evaluation of
    [debug], or the execution of [_eval], raises (while building the
    environment, compiling or running), the command adds no reaction:
    everything it does besides is sending, waiting and deleting. *)
Theorem no_reaction_on_failure (py : engine) (ctx : Context)
    (source : Py.str) (svc : service) (w : world) (e : exn) :
  (evaluated_by_debug py (cog w) ctx source = Raises e →
   ∃ performed : list action,
     actions (snd (debug py ctx source svc w)) = actions w ++ performed
     ∧ Forall no_reaction performed)
  ∧ (executed_by_eval py (cog w) ctx source = Raises e →
     ∃ performed : list action,
       actions (snd (_eval py ctx source svc w)) = actions w ++ performed
       ∧ Forall no_reaction performed).
Proof.
  assert (Hnone : ∃ performed : list action,
            actions w = actions w ++ performed ∧ Forall no_reaction performed).
  { exists []. by rewrite app_nil_r. }
  split.
  - unfold evaluated_by_debug, debug.
    rewrite run_bind, run_get_environment.
    destruct (snd (get_environment_calls (cog w) ctx)) as [env|e0]; [|done].
    intros Hx. rewrite run_try, run_lift, Hx.
    destruct (isinstance_any e _); [|done].
    destruct (isinstance e "SyntaxError");
      [apply syntax_error_reply_no_reaction|apply reply_no_reaction].
  - unfold executed_by_eval, _eval.
    rewrite run_bind, run_get_environment.
    destruct (snd (get_environment_calls (cog w) ctx)) as [env|e0]; [|done].
    rewrite run_try, run_lift.
    destruct (compile_exec py (eval_source (cleanup_code source)) env)
      as [env'|e1].
    + destruct (env' !! "func"%string) as [func|]; [|done].
      intros Hx. rewrite run_bind, Hx, run_ret. cbn beta iota.
      cbn [is_not_None]. rewrite run_bind, run_ret. cbn beta iota.
      apply reply_no_reaction.
    + intros _. destruct (isinstance_any e1 _); [|done].
      apply syntax_error_reply_no_reaction.
Qed.

(** An example of [no_reaction_on_failure]: [debug] of a division by
    zero sends the error, boxed, and nothing else. *)
Lemma no_reaction_on_failure_division :
  ∃ performed : list action,
    actions (snd (debug (constant_engine (Raises ZeroDivisionError))
                    owner_ctx (Py.lit "1/0") quiet_service
                    {| actions := []; cog := new_Dev |}))
    = [] ++ performed
    ∧ Forall no_reaction performed.
Proof.
  destruct (no_reaction_on_failure (constant_engine (Raises ZeroDivisionError))
              owner_ctx (Py.lit "1/0") quiet_service
              {| actions := []; cog := new_Dev |} ZeroDivisionError)
    as [Hdebug _].
  apply Hdebug. reflexivity.
Defined.

(** ** Partial delivery *)

Lemma send_interactive_loop_count (svc : service) (ctx : Context)
    (box_lang : option Py.str) (timeout total : Z) (pages : list Py.str) :
  ∀ (idx : Z) (ret : list message) (w : world) (ret' : list message),
    fst (send_interactive_loop ctx box_lang timeout total idx pages ret svc w)
    = Returns ret' →
    (length ret ≤ length ret' ∧ length ret' ≤ length ret + length pages)%nat
    ∧ (pages ≠ [] → (length ret < length ret')%nat).
Proof.
  induction pages as [|page pages IH]; intros idx ret w ret';
    cbn [send_interactive_loop].
  - rewrite run_ret. intros [= <-]. simpl. split; [lia|done].
  - rewrite run_bind.
    destruct (send (render_page box_lang page) svc w) as [[msg|e] w1];
      [|done].
    assert (Hnext : ∀ w' : world,
              fst (send_interactive_loop ctx box_lang timeout total (idx + 1)
                     pages (ret ++ [msg]) svc w') = Returns ret' →
              (length ret ≤ length ret'
               ∧ length ret' ≤ length ret + length (page :: pages))%nat
              ∧ (page :: pages ≠ [] → (length ret < length ret')%nat)).
    { intros w' H. apply IH in H as [[H1 H2] _].
      rewrite length_app in *. simpl in *. split; [lia|]. intros _. lia. }
    destruct (0 <? total - idx); [|apply Hnext].
    rewrite run_bind.
    destruct (send (remaining_prompt (total - idx)) svc w1)
      as [[query|e] w2]; [|done].
    rewrite run_try.
    destruct (wait_for (more_predicate ctx) timeout svc w2)
      as [[resp|e] w3].
    + rewrite run_bind.
      destruct (try_except_else _ _ _ _ svc w3) as [[[]|e] w4]; [|done].
      apply Hnext.
    + destruct (isinstance_any e _); [|done].
      rewrite run_bind.
      destruct (suppress _ _ svc w3) as [[[]|e'] w4]; [|done].
      rewrite run_ret. intros [= <-]. rewrite length_app. simpl.
      split; [lia|]. intros _. lia.
Qed.

(** X26: on any channel, when [send_interactive] returns at all it
    returns at most one handle per page, and at least one when there is a
    page: it never returns empty-handed from pages to send, whether the
    delivery was completed or cut short by a timeout. *)
Theorem send_interactive_returns_some (svc : service) (ctx : Context)
    (messages : list Py.str) (box_lang : option Py.str) (timeout : Z)
    (w : world) (ret : list message) :
  fst (send_interactive ctx messages box_lang timeout svc w) = Returns ret →
  (length ret ≤ length messages)%nat ∧ (messages ≠ [] → ret ≠ []).
Proof.
  intros H. apply send_interactive_loop_count in H as [[_ H2] H3].
  split; [simpl in H2; lia|]. intros Hm ->. apply H3 in Hm. simpl in Hm. lia.
Qed.

(** An example of [send_interactive_returns_some]: two pages, nobody
    answering. *)
Lemma send_interactive_returns_some_two :
  (length [{| msg_id := 0; msg_author_id := 0; msg_channel_id := 7;
              msg_content := Py.lit "a" |}] ≤ length [Py.lit "a"; Py.lit "b"])%nat
  ∧ ([Py.lit "a"; Py.lit "b"] ≠ [] →
     [{| msg_id := 0; msg_author_id := 0; msg_channel_id := 7;
         msg_content := Py.lit "a" |}] ≠ []).
Proof.
  apply (send_interactive_returns_some quiet_service owner_ctx
           [Py.lit "a"; Py.lit "b"] None 15
           {| actions := []; cog := new_Dev |}).
  reflexivity.
Defined.

(** ** Silent evaluation and the life of a session *)

(** X27: when the function [_eval] builds prints nothing and returns
    [None], and the token is not the empty string, the command sends no
    message: all it does is what [tick] does, and it returns when [tick]
    does. *)
Theorem eval_silent (py : engine) (ctx : Context) (body : Py.str)
    (svc : service) (w : world) (env env' : gmap string value)
    (func : value) :
  snd (get_environment_calls (cog w) ctx) = Returns env →
  compile_exec py (eval_source (cleanup_code body)) env = Returns env' →
  env' !! "func"%string = Some func →
  result (call_func py func env') = Returns VNone →
  printed (call_func py func env') = [] →
  ctx_token ctx ≠ [] →
  snd (_eval py ctx body svc w) = snd (tick ctx svc w)
  ∧ (∀ ticked : bool,
       fst (tick ctx svc w) = Returns ticked →
       fst (_eval py ctx body svc w) = Returns tt).
Proof.
  intros Henv Hexec Hfunc Hres Hout Htoken. unfold _eval.
  rewrite run_bind, run_get_environment, Henv, run_try, run_lift, Hexec.
  rewrite Hfunc, run_bind, Hres, run_bind.
  destruct (tick ctx svc w) as [[ticked|e] w1]; cbn [fst snd];
    [|split; [done|intros ? [=]]].
  rewrite run_ret. cbn beta iota. cbn [is_not_None].
  rewrite run_bind, run_ret. cbn beta iota.
  rewrite Hout, sanitize_output_nothing by done.
  split; [reflexivity|]. intros _ _. reflexivity.
Qed.

(** An example of [eval_silent]: the only action is the reaction. *)
Lemma eval_silent_pass :
  snd (_eval (constant_engine (Returns VNone)) owner_ctx (Py.lit "pass")
         quiet_service {| actions := []; cog := new_Dev |})
  = {| actions := [AddReaction]; cog := new_Dev |}.
Proof.
  etrans.
  - apply (eval_silent (constant_engine (Returns VNone)) owner_ctx
             (Py.lit "pass") quiet_service
             {| actions := []; cog := new_Dev |}
             (list_to_map (base_bindings new_Dev owner_ctx))
             (<["func"%string := VHost "func"]>
                (list_to_map (base_bindings new_Dev owner_ctx)))
             (VHost "func")); try reflexivity. discriminate.
  - reflexivity.
Defined.

(** X28: [repl] in a channel without a session, when the environment can
    be built and the channel accepts the entry notice, registers the
    session as running, leaves the sessions of other channels alone, sends
    that one notice, and waits for input. *)
Theorem repl_opens_running (py : engine) (ctx : Context) (svc : service)
    (w : world) (env : gmap string value) (notice : message) :
  sessions (cog w) !! ctx_channel_id ctx = None →
  snd (get_environment_calls (cog w) ctx) = Returns env →
  send_result svc (actions w)
    (Py.lit "Enter code to execute or evaluate. `exit()` or `quit` to exit."
     ++ Py.lit " `" ++ ctx_prefix ctx ++ Py.lit "repl pause` to pause.")
  = Returns notice →
  repl py ctx [] svc w
  = (Returns (Waiting (<["_"%string := VNone]>
                         (<["__builtins__"%string := VHost "__builtins__"]>
                            env))),
     {| actions :=
          actions w ++
          [Send (Py.lit
                   "Enter code to execute or evaluate. `exit()` or `quit` to exit."
                 ++ Py.lit " `" ++ ctx_prefix ctx
                 ++ Py.lit "repl pause` to pause.")];
        cog := with_sessions (<[ctx_channel_id ctx := true]> (sessions (cog w)))
                 (cog w) |}).
Proof.
  intros Hs Henv Hsend. unfold repl. rewrite run_bind. cbn [get_self].
  rewrite Hs, run_bind. unfold session_environment.
  rewrite run_bind, run_get_environment, Henv, run_ret.
  rewrite run_bind, run_set_self, run_bind. unfold send.
  rewrite run_perform. cbn [actions cog]. rewrite Hsend. reflexivity.
Qed.

(** An example of [repl_opens_running]. *)
Lemma repl_opens_running_owner :
  sessions
    (cog (snd (repl (constant_engine (Returns VNone)) owner_ctx []
                 quiet_service {| actions := []; cog := new_Dev |})))
  !! 7 = Some true.
Proof.
  rewrite (repl_opens_running (constant_engine (Returns VNone)) owner_ctx
             quiet_service {| actions := []; cog := new_Dev |}
             (list_to_map (base_bindings new_Dev owner_ctx))
             {| msg_id := 0; msg_author_id := 0; msg_channel_id := 7;
                msg_content :=
                  Py.lit
  "Enter code to execute or evaluate. `exit()` or `quit` to exit. `!repl pause` to pause." |});
    reflexivity.
Defined.

(** X29: a session opened and then quit leaves [self.sessions] exactly as
    it was before: opening inserts the channel's entry and the quit
    keyword deletes it again. The channel is taken to accept the two
    notices. *)
Theorem repl_open_quit_round_trip (py : engine) (ctx : Context)
    (svc : service) (w : world) (env : gmap string value)
    (response notice bye : message) (events : list event) :
  sessions (cog w) !! ctx_channel_id ctx = None →
  snd (get_environment_calls (cog w) ctx) = Returns env →
  send_result svc (actions w)
    (Py.lit "Enter code to execute or evaluate. `exit()` or `quit` to exit."
     ++ Py.lit " `" ++ ctx_prefix ctx ++ Py.lit "repl pause` to pause.")
  = Returns notice →
  send_result svc
    (actions w ++
     [Send (Py.lit
              "Enter code to execute or evaluate. `exit()` or `quit` to exit."
            ++ Py.lit " `" ++ ctx_prefix ctx ++ Py.lit "repl pause` to pause.")])
    (Py.lit "Exiting.") = Returns bye →
  repl_predicate ctx response = true →
  is_quit (cleanup_code (msg_content response)) = true →
  fst (repl py ctx (Incoming response :: events) svc w) = Returns Exited
  ∧ sessions (cog (snd (repl py ctx (Incoming response :: events) svc w)))
    = sessions (cog w).
Proof.
  intros Hs Henv Hsend Hbye Hpred Hquit.
  assert (H : ∃ w' : world,
             repl py ctx (Incoming response :: events) svc w
             = (Returns Exited, w')
             ∧ sessions (cog w') = sessions (cog w)).
  { eexists. split.
    - unfold repl. rewrite run_bind. cbn [get_self].
      rewrite Hs, run_bind. unfold session_environment.
      rewrite run_bind, run_get_environment, Henv, run_ret.
      rewrite run_bind, run_set_self, run_bind. unfold send at 1.
      rewrite run_perform. cbn [actions cog]. rewrite Hsend.
      cbn [repl_loop]. rewrite Hpred, run_bind. unfold repl_body.
      rewrite run_bind. cbn [get_self cog with_sessions sessions].
      rewrite lookup_insert_eq. cbv zeta. rewrite Hquit.
      rewrite run_bind. unfold send. rewrite run_perform.
      cbn [actions cog]. rewrite Hbye.
      rewrite run_bind, run_set_self, run_ret, run_ret. reflexivity.
    - cbn [cog with_sessions sessions].
      by rewrite delete_insert_eq, delete_id. }
  destruct H as (w' & -> & Hw'). done.
Qed.

(** An example of [repl_open_quit_round_trip]: channel 7 beside a paused
    session in channel 8. *)
Lemma repl_open_quit_round_trip_owner :
  fst (repl (constant_engine (Returns VNone)) owner_ctx
         [Incoming (owner_says (Py.lit "`exit()`"))] quiet_service
         {| actions := []; cog := with_sessions {[ 8 := false ]} new_Dev |})
  = Returns Exited
  ∧ sessions
      (cog (snd (repl (constant_engine (Returns VNone)) owner_ctx
                   [Incoming (owner_says (Py.lit "`exit()`"))] quiet_service
                   {| actions := [];
                      cog := with_sessions {[ 8 := false ]} new_Dev |})))
    = {[ 8 := false ]}.
Proof.
  change ({[ 8 := false ]} : gmap Z bool)
    with (sessions
            (cog {| actions := [];
                    cog := with_sessions {[ 8 := false ]} new_Dev |})) at 3.
  eapply (repl_open_quit_round_trip (constant_engine (Returns VNone))
            owner_ctx quiet_service
            {| actions := []; cog := with_sessions {[ 8 := false ]} new_Dev |});
    reflexivity.
Defined.
